(** * parse_schools: a shallow embedding of [scrap.py] and [console_proc.py]

    The crawler fetches a directory of school subdomains, parses the teacher
    page of each subdomain and downloads the teachers' photos.  This file
    embeds the two source files as Rocq functions and proves (or refutes)
    the properties stated about them.

    Conventions of the embedding:
    - a Python [str] is the list of its code points ([Py.str]);
    - a Python [dict] is an association list in insertion order ([Py.dict]);
    - a coroutine is a function in the monad [M], which threads the file
      store and an event log and may end in a raised exception;
    - the HTTP client, the HTML parser and the folder of the images are
      external: a [world] gives the outcome of every request and of opening
      an image file, and an [html] document is what the selectors used by
      the source return on it. *)

From Stdlib Require Import ZArith NArith Ascii String Lia.
From stdpp Require Import base decidable list gmap.

Local Open Scope N_scope.

(** ** Python values *)

Module Py.

(** [str]: the sequence of code points. *)
Definition str := list N.

(** An ASCII literal as a [str]. *)
Fixpoint lit (s : string) : str :=
  match s with
  | EmptyString => []
  | String a r => N_of_ascii a :: lit r
  end.

(** The values that the source stores in a teacher record: [None] or a [str]. *)
Inductive value :=
| VNone
| VStr (s : str).

#[global] Instance value_eq_dec : EqDecision value.
Proof. solve_decision. Defined.

(** Keys of the dictionaries of the source: a [str] or an [int]
    (as [translate] looks a character up by its ordinal). *)
Inductive key :=
| KStr (s : str)
| KInt (n : N).

#[global] Instance key_eq_dec : EqDecision key.
Proof. solve_decision. Defined.

(** [dict]: association list, in insertion order, without duplicate keys. *)
Definition dict (K V : Type) := list (K * V).

Fixpoint dict_get {K V} `{EqDecision K} (k : K) (d : dict K V) : option V :=
  match d with
  | [] => None
  | (k', v) :: r => if decide (k' = k) then Some v else dict_get k r
  end.

(** [d[k] = v]: an existing key keeps its place, a new one goes last. *)
Fixpoint dict_set {K V} `{EqDecision K} (k : K) (v : V) (d : dict K V) : dict K V :=
  match d with
  | [] => [(k, v)]
  | (k', v') :: r => if decide (k' = k) then (k, v) :: r else (k', v') :: dict_set k v r
  end.

(** [str.isspace] on one code point (the characters [str.strip] removes). *)
Definition isspace (c : N) : bool :=
  ((9 <=? c) && (c <=? 13)) || ((28 <=? c) && (c <=? 32))
  || (c =? 133) || (c =? 160) || (c =? 5760)
  || ((8192 <=? c) && (c <=? 8202))
  || (c =? 8232) || (c =? 8233) || (c =? 8239) || (c =? 8287) || (c =? 12288).

Fixpoint lstrip (s : str) : str :=
  match s with
  | [] => []
  | c :: r => if isspace c then lstrip r else s
  end.

Definition rstrip (s : str) : str := rev (lstrip (rev s)).

Definition strip (s : str) : str := rstrip (lstrip s).

(** [s.translate(table)]: each character is looked up by its ordinal, an
    [int] key; a character without entry is kept. *)
Definition translate (table : dict key str) (s : str) : str :=
  flat_map (fun c => match dict_get (KInt c) table with
                     | Some r => r
                     | None => [c]
                     end) s.

(** [seq[i]] with Python's negative indices; [None] stands for [IndexError]. *)
Definition index {A} (l : list A) (i : Z) : option A :=
  let n := Z.of_nat (length l) in
  if (0 <=? i)%Z && (i <? n)%Z then l !! Z.to_nat i
  else if (- n <=? i)%Z && (i <? 0)%Z then l !! Z.to_nat (n + i)
  else None.

End Py.

(** ** console_proc.py *)

Module ConsoleProc.

Definition _loading_chars : Py.str := Py.lit "-" ++ [92] ++ Py.lit "|/".

(** Initial value of the global [_char_pos]. *)
Definition _char_pos_init : Z := 0%Z.

(** [print_loading]: the global after the call and the text printed, or
    [None] when the indexing raises. *)
Definition print_loading (_char_pos : Z) : option (Z * Py.str) :=
  let _char_pos := ((_char_pos + 1) mod Z.of_nat (length _loading_chars))%Z in
  match Py.index _loading_chars _char_pos with
  | Some c => Some (_char_pos, Py.lit (String "013" " ") ++ [c] ++ Py.lit " ")
  | None => None
  end.

(** [n] calls in a row, from a given value of the global. *)
Fixpoint calls (n : nat) (_char_pos : Z) : option Z :=
  match n with
  | O => Some _char_pos
  | S n' => match print_loading _char_pos with
            | Some (p, _) => calls n' p
            | None => None
            end
  end.

End ConsoleProc.

(** ** scrap.py: constants and the name sanitizer *)

Definition URL_SUBDS : Py.str := Py.lit "https://schools.by/subdomains".
Definition URL_TEACHERS : Py.str := Py.lit "/teachers".
Definition MAX_RECONNECT_TRIES : nat := 3.
Definition SUBFOLDER : Py.str := Py.lit "img".

(** The table has one-character [str] keys. *)
Definition TRANSLATION_TABLE : Py.dict Py.key Py.str :=
  [ (Py.KStr (Py.lit "/"), Py.lit "_");
    (Py.KStr (Py.lit "<"), Py.lit "_");
    (Py.KStr (Py.lit ">"), Py.lit "_");
    (Py.KStr (Py.lit ":"), Py.lit "_");
    (Py.KStr [34], Py.lit "_");
    (Py.KStr [92], Py.lit "_");
    (Py.KStr (Py.lit "|"), Py.lit "_");
    (Py.KStr (Py.lit "?"), Py.lit "_");
    (Py.KStr (Py.lit "*"), Py.lit "_") ].

(** The expression statement of the body: computed, then dropped. *)
Definition make_name_valid_expr (name : Py.str) : Py.str :=
  Py.translate TRANSLATION_TABLE (Py.strip name).

(** The body has no [return]: the call evaluates to [None]. *)
Definition make_name_valid (name : Py.str) : Py.value :=
  let _ := make_name_valid_expr name in
  Py.VNone.

(** The characters the sanitizer is meant to replace. *)
Definition forbidden : list N := [47; 60; 62; 58; 34; 92; 124; 63; 42].

(** ** The outside world: exceptions, responses, documents *)

(** Classes of the exceptions a request can raise: those the source names
    in its [except] clauses, and any other one. *)
Inductive exn :=
| ClientError            (* aiohttp.ClientError *)
| ServerConnectionError  (* aiohttp.ServerConnectionError *)
| ServerTimeoutError     (* aiohttp.ServerTimeoutError *)
| TimeoutError           (* asyncio.TimeoutError *)
| UnicodeError
| OtherError.

#[global] Instance exn_eq_dec : EqDecision exn.
Proof. solve_decision. Defined.

(** [issubclass]: aiohttp derives [ServerTimeoutError] from
    [ServerConnectionError] and [asyncio.TimeoutError], and
    [ServerConnectionError] from [ClientError]. *)
Definition issubclass (c base : exn) : bool :=
  match c, base with
  | ClientError, ClientError => true
  | ServerConnectionError, (ServerConnectionError | ClientError) => true
  | ServerTimeoutError,
    (ServerTimeoutError | ServerConnectionError | ClientError | TimeoutError) => true
  | TimeoutError, TimeoutError => true
  | UnicodeError, UnicodeError => true
  | OtherError, OtherError => true
  | _, _ => false
  end.

(** [except (c1, c2, ...)] catches [e]. *)
Definition except (classes : list exn) (e : exn) : bool :=
  existsb (issubclass e) classes.

Inductive result (A : Type) :=
| Return (a : A)
| Raise (e : exn).
Arguments Return {A} a.
Arguments Raise {A} e.

(** A teacher card, as the two [select_one] queries of the source see it:
    the text of its [a.user_type_3] element when there is one, and its
    [a.photo>img] element when there is one, given by its [src] attribute
    (which the element may lack). *)
Record card := {
  user_type_3 : option Py.str;
  photo_img : option (option Py.str)
}.

(** A document, as the [select] queries of the source see it: its
    [div.sch_ptbox_item] elements, and for each [div.schlist_city_box]
    element the [href] attribute (possibly missing) of its [li > a]
    elements, all in document order. *)
Record html := {
  sch_ptbox_item : list card;
  schlist_city_box : list (list (option Py.str))
}.

(** Outcome of [session.get(url)] followed by [resp.text()] or
    [resp.read()], for the attempt of the given number (from 0) of the
    operation that issues it; and outcome of [aiofiles.open(path, "wb")]
    on a path built from a caller's file name: the exception it raises (a
    directory that is missing, a name that cannot be encoded) or the file
    that the path names, given by its key in the file store (a path
    through [".."] names the file of the normalised path). *)
Record world := {
  text_of : Py.str -> nat -> result html;
  read_of : Py.str -> nat -> result (list N);
  open_of : Py.str -> result Py.str
}.

(** ** State and effects *)

Inductive content :=
| Text (s : Py.str)
| Bytes (b : list N).

Inductive task :=
| ParseTask (page_url : Py.str)
| ImageTask (filename img_url : Py.str).

Inductive event :=
| EvGet (url : Py.str)       (* a request is issued *)
| EvSaved (path : Py.str)    (* a file has been written and closed *)
| EvCreate (t : task)        (* asyncio.create_task *)
| EvAwaited (t : task).      (* an await on the task has returned or raised *)

#[global] Instance content_eq_dec : EqDecision content.
Proof. solve_decision. Defined.
#[global] Instance task_eq_dec : EqDecision task.
Proof. solve_decision. Defined.
#[global] Instance event_eq_dec : EqDecision event.
Proof. solve_decision. Defined.

Record state := {
  files : gmap Py.str content;
  log : list event
}.

(** A computation reads and changes the state and returns or raises; what
    it did before raising stays done. *)
Definition M (A : Type) := state -> result A * state.

Definition ret {A} (a : A) : M A := fun s => (Return a, s).

Definition raise {A} (e : exn) : M A := fun s => (Raise e, s).

Definition bind {A B} (c : M A) (k : A -> M B) : M B :=
  fun s => match c s with
           | (Return a, s') => k a s'
           | (Raise e, s') => (Raise e, s')
           end.

Notation "'do' x <- c ;; k" := (bind c (fun x => k))
  (at level 10, x name, c at level 99, k at level 200, only parsing).

Definition emit (e : event) : M unit :=
  fun s => (Return tt, {| files := files s; log := log s ++ [e] |}).

(** [async with session.get(url) as resp: await resp.text()] *)
Definition get_text (w : world) (url : Py.str) (attempt : nat) : M html :=
  do _ <- emit (EvGet url) ;;
  match text_of w url attempt with
  | Return h => ret h
  | Raise e => raise e
  end.

(** [async with session.get(url) as resp: await resp.read()] *)
Definition get_bytes (w : world) (url : Py.str) (attempt : nat) : M (list N) :=
  do _ <- emit (EvGet url) ;;
  match read_of w url attempt with
  | Return b => ret b
  | Raise e => raise e
  end.

(** [open(path, "w")] on one of the two constant paths of [main], in the
    working directory: the file is created or emptied. *)
Definition open_w (path : Py.str) (empty : content) : M unit :=
  fun s => (Return tt, {| files := <[path := empty]> (files s); log := log s |}).

(** [aiofiles.open(path, "wb")] on a path built from a file name: it
    raises, or the file that the path names is created or emptied and
    handed back. *)
Definition open_wb (w : world) (path : Py.str) : M Py.str :=
  fun s => match open_of w path with
           | Return file =>
               (Return file, {| files := <[file := Bytes []]> (files s); log := log s |})
           | Raise e => (Raise e, s)
           end.

(** [afile.write(data)] on a text file: the data goes to the end. *)
Definition write_text (path data : Py.str) : M unit :=
  fun s => (Return tt,
            {| files := <[path := match files s !! path with
                                  | Some (Text old) => Text (old ++ data)
                                  | _ => Text data
                                  end]> (files s);
               log := log s |}).

(** [afile.write(raw)] on a file opened with ["wb"]. *)
Definition write_bytes (path : Py.str) (raw : list N) : M unit :=
  fun s => (Return tt,
            {| files := <[path := match files s !! path with
                                  | Some (Bytes old) => Bytes (old ++ raw)
                                  | _ => Bytes raw
                                  end]> (files s);
               log := log s |}).

(** [os.path.join(a, b)] on a POSIX system. *)
Definition path_join (a b : Py.str) : Py.str :=
  match b with
  | 47 :: _ => b
  | _ => match last a with
         | Some 47 | None => a ++ b
         | _ => a ++ [47] ++ b
         end
  end.

(** How one of the two [while ... else] retry loops ends. *)
Inductive loop_exit (A : Type) :=
| Break (a : A)      (* [break]: the request succeeded *)
| Exhausted          (* the [else] clause of the [while] *)
| Returned.          (* [return] in the [UnicodeError] handler *)
Arguments Break {A} a.
Arguments Exhausted {A}.
Arguments Returned {A}.

(** ** download_and_save_image *)

(** The [while tries < MAX_RECONNECT_TRIES] loop; [remaining] is
    [MAX_RECONNECT_TRIES - tries], and the [finally] clause adds one to
    [tries] on every way out of the [try]. *)
Fixpoint download_loop (w : world) (img_url : Py.str) (remaining tries : nat)
  : M (loop_exit (list N)) :=
  match remaining with
  | O => ret Exhausted
  | S remaining' =>
      fun s =>
        match get_bytes w img_url tries s with
        | (Return raw, s') => (Return (Break raw), s')
        | (Raise e, s') =>
            if except [ServerConnectionError; ClientError; ServerTimeoutError] e
            then download_loop w img_url remaining' (S tries) s'
            else if except [TimeoutError] e
            then download_loop w img_url remaining' (S tries) s'
            else if except [UnicodeError] e
            then (Return Returned, s')
            else (Raise e, s')
        end
  end.

Definition download_and_save_image (w : world) (filename img_url : Py.str) : M unit :=
  do x <- download_loop w img_url (MAX_RECONNECT_TRIES - 0) 0 ;;
  match x with
  | Exhausted | Returned => ret tt
  | Break raw =>
      let path_to_file := path_join SUBFOLDER (filename ++ Py.lit ".jpg") in
      do afile <- open_wb w path_to_file ;;
      do _ <- write_bytes afile raw ;;
      emit (EvSaved path_to_file)
  end.

(** ** parse_teachers_page *)

(** A teacher record: a [dict] with the keys ['name'] and ['img_url']. *)
Definition teacher := Py.dict Py.str Py.value.

(** [d.get(k)]: the value stored, [None] for a missing key. *)
Definition teacher_get (k : Py.str) (d : teacher) : Py.value :=
  match Py.dict_get k d with
  | Some v => v
  | None => Py.VNone
  end.

(** The retry loop of the page fetch: as [download_loop], without the
    [asyncio.TimeoutError] handler. *)
Fixpoint page_loop (w : world) (page_url : Py.str) (remaining tries : nat)
  : M (loop_exit html) :=
  match remaining with
  | O => ret Exhausted
  | S remaining' =>
      fun s =>
        match get_text w page_url tries s with
        | (Return h, s') => (Return (Break h), s')
        | (Raise e, s') =>
            if except [ServerConnectionError; ClientError; ServerTimeoutError] e
            then page_loop w page_url remaining' (S tries) s'
            else if except [UnicodeError] e
            then (Return Returned, s')
            else (Raise e, s')
        end
  end.

(** The body of [for card in teachers_cards], up to [if teacher:]. *)
Definition parse_card (c : card) : teacher :=
  let teacher := [] in
  let teacher :=
    match user_type_3 c with
    | Some text => Py.dict_set (Py.lit "name") (make_name_valid text) teacher
    | None => teacher
    end in
  let teacher :=
    match photo_img c with
    | Some (Some src) => Py.dict_set (Py.lit "img_url") (Py.VStr src) teacher
    | Some None => Py.dict_set (Py.lit "img_url") Py.VNone teacher
    | None => teacher
    end in
  teacher.

(** The [for] loop over the cards; a [dict] is true when it is not empty. *)
Fixpoint parse_cards (teachers_cards : list card) (teachers : list teacher)
  : list teacher :=
  match teachers_cards with
  | [] => teachers
  | c :: rest =>
      match parse_card c with
      | [] => parse_cards rest teachers
      | t => parse_cards rest (teachers ++ [t])
      end
  end.

Definition parse_teachers_page (w : world) (page_url : Py.str) : M (list teacher) :=
  let teachers := [] in
  do x <- page_loop w page_url (MAX_RECONNECT_TRIES - 0) 0 ;;
  match x with
  | Exhausted | Returned => ret []
  | Break soup => ret (parse_cards (sch_ptbox_item soup) teachers)
  end.

(** ** json.dumps, for a list of teacher records *)

Module Json.

Definition hex (n : N) : N := if n <? 10 then 48 + n else 87 + n.

(** The replacements of [json.encoder.ESCAPE_DCT]; with
    [ensure_ascii=False] no other character is touched. *)
Definition escape (c : N) : Py.str :=
  if c =? 92 then [92; 92]
  else if c =? 34 then [92; 34]
  else if c =? 8 then [92; 98]
  else if c =? 12 then [92; 102]
  else if c =? 10 then [92; 110]
  else if c =? 13 then [92; 114]
  else if c =? 9 then [92; 116]
  else if c <? 32 then [92; 117; 48; 48; hex (c / 16); hex (c mod 16)]
  else [c].

Definition dumps_str (s : Py.str) : Py.str := [34] ++ flat_map escape s ++ [34].

Definition dumps_value (v : Py.value) : Py.str :=
  match v with
  | Py.VNone => Py.lit "null"
  | Py.VStr s => dumps_str s
  end.

(** [sep.join(items)] *)
Fixpoint join (sep : Py.str) (items : list Py.str) : Py.str :=
  match items with
  | [] => []
  | [x] => x
  | x :: rest => x ++ sep ++ join sep rest
  end.

Definition dumps_dict (d : teacher) : Py.str :=
  Py.lit "{"
  ++ join (Py.lit ", ")
       (map (fun kv => dumps_str (fst kv) ++ Py.lit ": " ++ dumps_value (snd kv)) d)
  ++ Py.lit "}".

(** [json.dumps(teachers, ensure_ascii=False)] *)
Definition dumps (teachers : list teacher) : Py.str :=
  Py.lit "[" ++ join (Py.lit ", ") (map dumps_dict teachers) ++ Py.lit "]".

End Json.

(** ** main *)

(** [a.get("href", "")] *)
Definition href (a : option Py.str) : Py.str := default [] a.

(** [for div in divs_city_box: subdomains.extend(...)] *)
Fixpoint gather (divs_city_box : list (list (option Py.str))) (subdomains : list Py.str)
  : list Py.str :=
  match divs_city_box with
  | [] => subdomains
  | div :: rest => gather rest (subdomains ++ map href div)
  end.

Definition subdomains_txt : Py.str := Py.lit "subdomains.txt".
Definition teachers_json : Py.str := Py.lit "teachers.json".

(** [for subdomain in subdomains: await afile.write(subdomain + "\n")] *)
Fixpoint write_lines (subdomains : list Py.str) : M unit :=
  match subdomains with
  | [] => ret tt
  | subdomain :: rest =>
      do _ <- write_text subdomains_txt (subdomain ++ [10]) ;;
      write_lines rest
  end.

(** The first [for subdomain in subdomains] loop: one task per subdomain. *)
Fixpoint create_tasks (subdomains : list Py.str) (tasks : list Py.str) : M (list Py.str) :=
  match subdomains with
  | [] => ret tasks
  | subdomain :: rest =>
      let page_url := subdomain ++ URL_TEACHERS in
      do _ <- emit (EvCreate (ParseTask page_url)) ;;
      create_tasks rest (tasks ++ [page_url])
  end.

(** [await task]: the coroutine of the task runs, and what it returns or
    raises comes back to the awaiting coroutine.  The effects of a task are
    placed where it is awaited; its creation is logged apart. *)
Definition await {A} (t : task) (c : M A) : M A :=
  fun s => match c s with
           | (r, s') => (r, {| files := files s'; log := log s' ++ [EvAwaited t] |})
           end.

(** [for teacher in res]: a download task for each record with a name and
    an image URL. *)
Fixpoint create_img_tasks (res : list teacher) (img_tasks : list (Py.str * Py.str))
  : M (list (Py.str * Py.str)) :=
  match res with
  | [] => ret img_tasks
  | teacher :: rest =>
      let name := teacher_get (Py.lit "name") teacher in
      let img_url := teacher_get (Py.lit "img_url") teacher in
      match name, img_url with
      | Py.VStr name, Py.VStr img_url =>
          do _ <- emit (EvCreate (ImageTask name img_url)) ;;
          create_img_tasks rest (img_tasks ++ [(name, img_url)])
      | _, _ => create_img_tasks rest img_tasks
      end
  end.

(** [for task in tasks: res = await task ...] *)
Fixpoint collect (w : world) (tasks : list Py.str)
    (teachers : list teacher) (img_tasks : list (Py.str * Py.str))
  : M (list teacher * list (Py.str * Py.str)) :=
  match tasks with
  | [] => ret (teachers, img_tasks)
  | page_url :: rest =>
      do res <- await (ParseTask page_url) (parse_teachers_page w page_url) ;;
      match res with
      | [] => collect w rest teachers img_tasks
      | _ =>
          do img_tasks <- create_img_tasks res img_tasks ;;
          collect w rest (teachers ++ res) img_tasks
      end
  end.

(** [for img_task in img_tasks: await img_task] *)
Fixpoint await_images (w : world) (img_tasks : list (Py.str * Py.str)) : M unit :=
  match img_tasks with
  | [] => ret tt
  | (name, img_url) :: rest =>
      do _ <- await (ImageTask name img_url) (download_and_save_image w name img_url) ;;
      await_images w rest
  end.

Definition main (w : world) : M unit :=
  do subds_html <- get_text w URL_SUBDS 0 ;;
  let divs_city_box := schlist_city_box subds_html in
  let subdomains := gather divs_city_box [] in
  do _ <- open_w subdomains_txt (Text []) ;;
  do _ <- write_lines subdomains ;;
  do _ <- emit (EvSaved subdomains_txt) ;;
  do tasks <- create_tasks subdomains [] ;;
  do r <- collect w tasks [] [] ;;
  let teachers := fst r in
  let img_tasks := snd r in
  do _ <- open_w teachers_json (Text []) ;;
  do _ <- write_text teachers_json (Json.dumps teachers) ;;
  do _ <- emit (EvSaved teachers_json) ;;
  await_images w img_tasks.

(** The state in which the script starts [main]: the files already there,
    and nothing logged yet. *)
Definition start (fs : gmap Py.str content) : state := {| files := fs; log := [] |}.

(** [s] with further events logged. *)
Definition logged (s : state) (es : list event) : state :=
  {| files := files s; log := log s ++ es |}.

(** The errors each retry loop answers with a further attempt, read off
    its [except] clauses. *)
Definition page_retries (e : exn) : bool :=
  except [ServerConnectionError; ClientError; ServerTimeoutError] e.

Definition image_retries (e : exn) : bool :=
  except [ServerConnectionError; ClientError; ServerTimeoutError] e
  || except [TimeoutError] e.

(** aiohttp's own client errors: [ClientError] and its subclasses. *)
Definition client_error (e : exn) : bool := issubclass e ClientError.

(** A card has a name element or a photo image element. *)
Definition has_field (c : card) : bool :=
  match user_type_3 c, photo_img c with
  | None, None => false
  | _, _ => true
  end.

(** The events of an image download task. *)
Definition image_event (e : event) : bool :=
  match e with
  | EvCreate (ImageTask _ _) | EvAwaited (ImageTask _ _) => true
  | _ => false
  end.

(** [s'] comes after [s] with the same files and no image task in between. *)
Definition extends (s s' : state) : Prop :=
  files s' = files s /\
  exists l, log s' = log s ++ l /\ Forall (fun e => image_event e = false) l.

(** One line of [subdomains.txt]. *)
Definition line (subdomain : Py.str) : Py.str := subdomain ++ [10].

(** The state after the discovery stage and the creation of the page tasks. *)
Definition discovered (h : html) (s : state) : state :=
  let subdomains := map href (concat (schlist_city_box h)) in
  {| files := <[subdomains_txt := Text (concat (map line subdomains))]> (files s);
     log := log s ++ [EvGet URL_SUBDS; EvSaved subdomains_txt]
            ++ map (fun sd => EvCreate (ParseTask (sd ++ URL_TEACHERS))) subdomains |}.


(** ** Sample inputs *)

Definition a_schools : Py.str := Py.lit "https://a.schools.by".
Definition a_teachers : Py.str := Py.lit "https://a.schools.by/teachers".
Definition x_jpg : Py.str := Py.lit "https://a.schools.by/x.jpg".

Definition jane_card : card :=
  {| user_type_3 := Some (Py.lit "Jane Doe"); photo_img := Some (Some x_jpg) |}.

Definition jane_page : html :=
  {| sch_ptbox_item := [jane_card]; schlist_city_box := [] |}.

Definition directory_page : html :=
  {| sch_ptbox_item := []; schlist_city_box := [[Some a_schools]] |}.

(** One city block with one subdomain, whose teacher page shows one card;
    every request succeeds. *)
Definition jane_world : world :=
  {| text_of := fun url _ =>
       if decide (url = URL_SUBDS) then Return directory_page
       else if decide (url = a_teachers) then Return jane_page
       else Raise ClientError;
     read_of := fun _ _ => Return [255; 216; 255];
     open_of := Return |}.

(** No request gets through. *)
Definition down_world : world :=
  {| text_of := fun _ _ => Raise ClientError;
     read_of := fun _ _ => Raise ClientError;
     open_of := Return |}.

(** Every request runs into the total timeout of the session. *)
Definition timeout_world : world :=
  {| text_of := fun _ _ => Raise TimeoutError;
     read_of := fun _ _ => Raise TimeoutError;
     open_of := Return |}.

(** The first two attempts of an operation fail, the third succeeds. *)
Definition flaky_world : world :=
  {| text_of := fun _ k =>
       match k with
       | 0%nat => Raise ServerConnectionError
       | 1%nat => Raise ServerTimeoutError
       | _ => Return jane_page
       end;
     read_of := fun _ k =>
       match k with
       | 0%nat => Raise ServerConnectionError
       | 1%nat => Raise ServerTimeoutError
       | _ => Return [255; 216; 255]
       end;
     open_of := Return |}.

(** The second attempt of an operation cannot be decoded. *)
Definition garbled_world : world :=
  {| text_of := fun _ k =>
       match k with
       | 0%nat => Raise ClientError
       | 1%nat => Raise UnicodeError
       | _ => Return jane_page
       end;
     read_of := fun _ k =>
       match k with
       | 0%nat => Raise ClientError
       | 1%nat => Raise UnicodeError
       | _ => Return [255; 216; 255]
       end;
     open_of := Return |}.

(** The directory page arrives, the teacher pages run into the timeout. *)
Definition stalled_world : world :=
  {| text_of := fun url _ =>
       if decide (url = URL_SUBDS) then Return directory_page else Raise TimeoutError;
     read_of := fun _ _ => Raise TimeoutError;
     open_of := Return |}.

(** The record that the card of Jane Doe stands for. *)
Definition jane_record : teacher :=
  [(Py.lit "name", Py.VStr (Py.lit "Jane Doe")); (Py.lit "img_url", Py.VStr x_jpg)].

(** What the page task of a URL returns or raises; it depends on the world
    only. *)
Definition page_result (w : world) (page_url : Py.str) : result (list teacher) :=
  fst (parse_teachers_page w page_url (start ∅)).

(** The records of the page tasks, in the order of the tasks. *)
Definition results (w : world) (tasks : list Py.str) : list teacher :=
  flat_map (fun page_url => match page_result w page_url with
                            | Return res => res
                            | Raise _ => []
                            end) tasks.

(** ** Further definitions for the facts on the whole program *)

(** The exception of the first page task, in the order of the tasks, that
    raises; [None] when every task returns. *)
Fixpoint first_raise (w : world) (tasks : list Py.str) : option exn :=
  match tasks with
  | [] => None
  | page_url :: rest =>
      match page_result w page_url with
      | Raise e => Some e
      | Return _ => first_raise w rest
      end
  end.

(** The page tasks of a directory page: one URL per anchor. *)
Definition page_tasks (h : html) : list Py.str :=
  map (fun sd => sd ++ URL_TEACHERS) (map href (concat (schlist_city_box h))).

(** The download that the guard of [main] starts for a record, if any. *)
Definition wanted (t : teacher) : option (Py.str * Py.str) :=
  match teacher_get (Py.lit "name") t, teacher_get (Py.lit "img_url") t with
  | Py.VStr name, Py.VStr img_url => Some (name, img_url)
  | _, _ => None
  end.


(** The first [n] turns of the [while True] loop of console_proc.py run as
    a script ([time.sleep] left out): the global at the end and all the
    text printed, or [None] when a call raises. *)
Fixpoint spin (n : nat) (_char_pos : Z) : option (Z * Py.str) :=
  match n with
  | O => Some (_char_pos, [])
  | S n' =>
      match ConsoleProc.print_loading _char_pos with
      | Some (p, out) =>
          match spin n' p with
          | Some (q, rest) => Some (q, out ++ rest)
          | None => None
          end
      | None => None
      end
  end.

(** The character shown at a position of the cycle, and the text of one
    call: carriage return, space, the character, space. *)
Definition glyph (p : Z) : N :=
  if (p =? 0)%Z then 45 else if (p =? 1)%Z then 92 else if (p =? 2)%Z then 124 else 47.

Definition frame (p : Z) : Py.str := [13; 32; glyph p; 32].

(** A request fails for a reason that no [except] clause names. *)
Definition broken_world : world :=
  {| text_of := fun _ _ => Raise OtherError;
     read_of := fun _ _ => Raise OtherError;
     open_of := Return |}.

(** The first image request fails with the session timeout, the second
    succeeds; the pages arrive at once. *)
Definition slow_image_world : world :=
  {| text_of := fun _ _ => Return jane_page;
     read_of := fun _ k =>
       match k with
       | 0%nat => Raise TimeoutError
       | _ => Return [255; 216; 255]
       end;
     open_of := Return |}.

(** ** The orchestrator over any page parser, the parser over any sanitizer *)


(** [parse_card], [parse_cards] and [parse_teachers_page] with the call of
    the sanitizer left open. *)
Definition parse_card_with (sanitize : Py.str -> Py.value) (c : card) : teacher :=
  let teacher := [] in
  let teacher :=
    match user_type_3 c with
    | Some text => Py.dict_set (Py.lit "name") (sanitize text) teacher
    | None => teacher
    end in
  let teacher :=
    match photo_img c with
    | Some (Some src) => Py.dict_set (Py.lit "img_url") (Py.VStr src) teacher
    | Some None => Py.dict_set (Py.lit "img_url") Py.VNone teacher
    | None => teacher
    end in
  teacher.

Fixpoint parse_cards_with (sanitize : Py.str -> Py.value)
    (teachers_cards : list card) (teachers : list teacher) : list teacher :=
  match teachers_cards with
  | [] => teachers
  | c :: rest =>
      match parse_card_with sanitize c with
      | [] => parse_cards_with sanitize rest teachers
      | t => parse_cards_with sanitize rest (teachers ++ [t])
      end
  end.

Definition parse_teachers_page_with (sanitize : Py.str -> Py.value)
    (w : world) (page_url : Py.str) : M (list teacher) :=
  let teachers := [] in
  do x <- page_loop w page_url (MAX_RECONNECT_TRIES - 0) 0 ;;
  match x with
  | Exhausted | Returned => ret []
  | Break soup => ret (parse_cards_with sanitize (sch_ptbox_item soup) teachers)
  end.

(** [collect] and [main] with the coroutine of the page tasks left open. *)
Fixpoint collect_with (parse : Py.str -> M (list teacher)) (tasks : list Py.str)
    (teachers : list teacher) (img_tasks : list (Py.str * Py.str))
  : M (list teacher * list (Py.str * Py.str)) :=
  match tasks with
  | [] => ret (teachers, img_tasks)
  | page_url :: rest =>
      do res <- await (ParseTask page_url) (parse page_url) ;;
      match res with
      | [] => collect_with parse rest teachers img_tasks
      | _ =>
          do img_tasks <- create_img_tasks res img_tasks ;;
          collect_with parse rest (teachers ++ res) img_tasks
      end
  end.

Definition main_with (parse : Py.str -> M (list teacher)) (w : world) : M unit :=
  do subds_html <- get_text w URL_SUBDS 0 ;;
  let divs_city_box := schlist_city_box subds_html in
  let subdomains := gather divs_city_box [] in
  do _ <- open_w subdomains_txt (Text []) ;;
  do _ <- write_lines subdomains ;;
  do _ <- emit (EvSaved subdomains_txt) ;;
  do tasks <- create_tasks subdomains [] ;;
  do r <- collect_with parse tasks [] [] ;;
  let teachers := fst r in
  let img_tasks := snd r in
  do _ <- open_w teachers_json (Text []) ;;
  do _ <- write_text teachers_json (Json.dumps teachers) ;;
  do _ <- emit (EvSaved teachers_json) ;;
  await_images w img_tasks.










(** The requests succeed, but the folder [img/a] of the path
    [img/a/b.jpg] does not exist. *)
Definition no_folder_world : world :=
  {| text_of := fun _ _ => Return jane_page;
     read_of := fun _ _ => Return [255; 216; 255];
     open_of := fun path =>
       if decide (path = Py.lit "img/a/b.jpg") then Raise OtherError else Return path |}.

(** ** Basic facts on states and requests *)

Lemma logged_nil s : logged s [] = s.
Proof. destruct s; unfold logged; simpl. by rewrite app_nil_r. Qed.

Lemma logged_logged s a b : logged (logged s a) b = logged s (a ++ b).
Proof. unfold logged; simpl. by rewrite app_assoc. Qed.

Lemma files_logged s es : files (logged s es) = files s.
Proof. done. Qed.

Lemma get_text_run w url k s :
  get_text w url k s =
  (match text_of w url k with Return h => Return h | Raise e => Raise e end,
   logged s [EvGet url]).
Proof. unfold get_text, bind, emit, ret, raise. by destruct (text_of w url k). Qed.

Lemma get_bytes_run w url k s :
  get_bytes w url k s =
  (match read_of w url k with Return b => Return b | Raise e => Raise e end,
   logged s [EvGet url]).
Proof. unfold get_bytes, bind, emit, ret, raise. by destruct (read_of w url k). Qed.

Lemma client_error_retried e :
  client_error e = true -> page_retries e = true /\ image_retries e = true.
Proof. by destruct e. Qed.

(** ** The two retry loops *)

Section Loops.
Variable w : world.

Lemma page_loop_step url remaining tries s :
  page_loop w url (S remaining) tries s =
  match text_of w url tries with
  | Return h => (Return (Break h), logged s [EvGet url])
  | Raise e =>
      if page_retries e then page_loop w url remaining (S tries) (logged s [EvGet url])
      else if except [UnicodeError] e then (Return Returned, logged s [EvGet url])
      else (Raise e, logged s [EvGet url])
  end.
Proof.
  cbn [page_loop]. rewrite get_text_run.
  by destruct (text_of w url tries).
Qed.

Lemma download_loop_step url remaining tries s :
  download_loop w url (S remaining) tries s =
  match read_of w url tries with
  | Return raw => (Return (Break raw), logged s [EvGet url])
  | Raise e =>
      if image_retries e then download_loop w url remaining (S tries) (logged s [EvGet url])
      else if except [UnicodeError] e then (Return Returned, logged s [EvGet url])
      else (Raise e, logged s [EvGet url])
  end.
Proof.
  cbn [download_loop]. rewrite get_bytes_run.
  destruct (read_of w url tries) as [raw|e]; [done|].
  unfold image_retries.
  by destruct (except [ServerConnectionError; ClientError; ServerTimeoutError] e).
Qed.

(** The induction on the number of retried attempts, the same for both
    loops; [step] is the unfolding of one turn of the loop. *)
Ltac retried_by step :=
  let j := fresh "j" in
  let IH := fresh "IH" in
  let H := fresh "H" in
  let e := fresh "e" in
  let He := fresh "He" in
  let Hr := fresh "Hr" in
  intros j; induction j as [|j IH]; intros remaining tries s H;
  [ by rewrite Nat.add_0_r, logged_nil
  | destruct (H 0%nat) as (e & He & Hr); [lia|];
    rewrite Nat.add_0_r in He;
    change (S j + remaining)%nat with (S (j + remaining));
    rewrite step, He, Hr, IH;
    [ rewrite logged_logged;
      by replace (S tries + j)%nat with (tries + S j)%nat by lia
    | let i := fresh "i" in
      let Hi := fresh "Hi" in
      intros i Hi; destruct (H (S i)) as (e' & He' & Hr'); [lia|];
      exists e'; split; [|done];
      by replace (S tries + i)%nat with (tries + S i)%nat by lia ] ].

(** [j] attempts in a row that end in a retried error: the loop goes on
    with [j] more tries counted and [j] requests logged. *)
Lemma page_loop_retried url : forall j remaining tries s,
  (forall i, (i < j)%nat ->
     exists e, text_of w url (tries + i) = Raise e /\ page_retries e = true) ->
  page_loop w url (j + remaining) tries s =
  page_loop w url remaining (tries + j) (logged s (replicate j (EvGet url))).
Proof. retried_by page_loop_step. Qed.

Lemma download_loop_retried url : forall j remaining tries s,
  (forall i, (i < j)%nat ->
     exists e, read_of w url (tries + i) = Raise e /\ image_retries e = true) ->
  download_loop w url (j + remaining) tries s =
  download_loop w url remaining (tries + j) (logged s (replicate j (EvGet url))).
Proof. retried_by download_loop_step. Qed.

(** Neither loop touches a file. *)
Lemma page_loop_files url remaining : forall tries s,
  files (snd (page_loop w url remaining tries s)) = files s.
Proof.
  induction remaining as [|r IH]; intros tries s; [done|].
  rewrite page_loop_step.
  destruct (text_of w url tries) as [h|e]; [done|].
  destruct (page_retries e); [by rewrite IH|].
  by destruct (except [UnicodeError] e).
Qed.

Lemma download_loop_files url remaining : forall tries s,
  files (snd (download_loop w url remaining tries s)) = files s.
Proof.
  induction remaining as [|r IH]; intros tries s; [done|].
  rewrite download_loop_step.
  destruct (read_of w url tries) as [h|e]; [done|].
  destruct (image_retries e); [by rewrite IH|].
  by destruct (except [UnicodeError] e).
Qed.

End Loops.

(** ** The card loop *)

Lemma parse_card_nil c : parse_card c = [] <-> has_field c = false.
Proof.
  destruct c as [[text|] [[src|]|]]; unfold parse_card, has_field; simpl; split; done.
Qed.

Lemma parse_cards_app cards : forall teachers,
  parse_cards cards teachers = teachers ++ map parse_card (filter (fun c => has_field c = true) cards).
Proof.
  induction cards as [|c rest IH]; intros teachers; simpl.
  - by rewrite app_nil_r.
  - rewrite filter_cons. destruct (parse_card c) as [|kv t] eqn:E.
    + apply parse_card_nil in E. rewrite decide_False by (by rewrite E). apply IH.
    + assert (has_field c = true) as Hc.
      { destruct (has_field c) eqn:F; [done|]. apply parse_card_nil in F. congruence. }
      rewrite decide_True by done. rewrite IH. simpl. rewrite E.
      by rewrite <- app_assoc.
Qed.

Lemma parse_card_name c : teacher_get (Py.lit "name") (parse_card c) = Py.VNone.
Proof. by destruct c as [[text|] [[src|]|]]. Qed.

Lemma parse_cards_name cards :
  Forall (fun t => teacher_get (Py.lit "name") t = Py.VNone) (parse_cards cards []).
Proof.
  rewrite parse_cards_app. simpl. apply Forall_map, Forall_forall.
  intros c _. apply parse_card_name.
Qed.

(** ** parse_teachers_page as a whole *)

Lemma parse_teachers_page_run w url s :
  parse_teachers_page w url s =
  match page_loop w url MAX_RECONNECT_TRIES 0 s with
  | (Return (Break soup), s') => (Return (parse_cards (sch_ptbox_item soup) []), s')
  | (Return _, s') => (Return [], s')
  | (Raise e, s') => (Raise e, s')
  end.
Proof.
  unfold parse_teachers_page, bind. rewrite Nat.sub_0_r.
  destruct (page_loop w url MAX_RECONNECT_TRIES 0 s) as [[[soup| |]|e] s']; done.
Qed.

Lemma download_and_save_image_run w filename url s :
  download_and_save_image w filename url s =
  match download_loop w url MAX_RECONNECT_TRIES 0 s with
  | (Return (Break raw), s') =>
      match open_of w (path_join SUBFOLDER (filename ++ Py.lit ".jpg")) with
      | Return file =>
          (Return tt,
           {| files := <[file := Bytes raw]> (files s');
              log := log s' ++ [EvSaved (path_join SUBFOLDER (filename ++ Py.lit ".jpg"))] |})
      | Raise e => (Raise e, s')
      end
  | (Return _, s') => (Return tt, s')
  | (Raise e, s') => (Raise e, s')
  end.
Proof.
  unfold download_and_save_image, bind. rewrite Nat.sub_0_r.
  destruct (download_loop w url MAX_RECONNECT_TRIES 0 s) as [[[raw| |]|e] s']; try done.
  unfold open_wb.
  destruct (open_of w (path_join SUBFOLDER (filename ++ Py.lit ".jpg"))) as [file|e]; [|done].
  unfold write_bytes, emit; simpl.
  rewrite lookup_insert_eq, insert_insert_eq. done.
Qed.

Lemma parse_teachers_page_files w url s :
  files (snd (parse_teachers_page w url s)) = files s.
Proof.
  rewrite parse_teachers_page_run.
  pose proof (page_loop_files w url MAX_RECONNECT_TRIES 0 s) as H.
  destruct (page_loop w url MAX_RECONNECT_TRIES 0 s) as [[[soup| |]|e] s']; done.
Qed.

Lemma parse_teachers_page_name w url s :
  match fst (parse_teachers_page w url s) with
  | Return teachers => Forall (fun t => teacher_get (Py.lit "name") t = Py.VNone) teachers
  | Raise _ => True
  end.
Proof.
  rewrite parse_teachers_page_run.
  destruct (page_loop w url MAX_RECONNECT_TRIES 0 s) as [[[soup| |]|e] s']; simpl; try done.
  apply parse_cards_name.
Qed.

(** ** Steps of main *)

Lemma extends_refl s : extends s s.
Proof. split; [done|]. exists []. by rewrite app_nil_r. Qed.

Lemma extends_trans s1 s2 s3 : extends s1 s2 -> extends s2 s3 -> extends s1 s3.
Proof.
  intros [F1 (l1 & L1 & A1)] [F2 (l2 & L2 & A2)]. split; [congruence|].
  exists (l1 ++ l2). split; [by rewrite L2, L1, app_assoc|]. by apply Forall_app.
Qed.

Lemma extends_logged s es :
  Forall (fun e => image_event e = false) es -> extends s (logged s es).
Proof. intros H. split; [done|]. by exists es. Qed.

Lemma page_loop_extends w url remaining : forall tries s,
  extends s (snd (page_loop w url remaining tries s)).
Proof.
  induction remaining as [|r IH]; intros tries s; [apply extends_refl|].
  assert (extends s (logged s [EvGet url])) as H1.
  { apply extends_logged. by repeat constructor. }
  rewrite page_loop_step.
  destruct (text_of w url tries) as [h|e]; [done|].
  destruct (page_retries e); [by eapply extends_trans|].
  by destruct (except [UnicodeError] e).
Qed.

Lemma parse_teachers_page_extends w url s :
  extends s (snd (parse_teachers_page w url s)).
Proof.
  rewrite parse_teachers_page_run.
  pose proof (page_loop_extends w url MAX_RECONNECT_TRIES 0 s) as H.
  destruct (page_loop w url MAX_RECONNECT_TRIES 0 s) as [[[soup| |]|e] s']; done.
Qed.

(** Records whose name is [None] start no download. *)
Lemma create_img_tasks_none res : forall img_tasks s,
  Forall (fun t => teacher_get (Py.lit "name") t = Py.VNone) res ->
  create_img_tasks res img_tasks s = (Return img_tasks, s).
Proof.
  induction res as [|t rest IH]; intros img_tasks s H; [done|].
  apply Forall_cons in H as [Ht Hrest]. cbn [create_img_tasks]. rewrite Ht. by apply IH.
Qed.

Lemma collect_extends w tasks : forall teachers s,
  extends s (snd (collect w tasks teachers [] s)) /\
  match fst (collect w tasks teachers [] s) with
  | Return r => snd r = []
  | Raise _ => True
  end.
Proof.
  induction tasks as [|url rest IH]; intros teachers s.
  - split; [apply extends_refl|done].
  - cbn [collect]. unfold bind, await.
    pose proof (parse_teachers_page_extends w url s) as He.
    pose proof (parse_teachers_page_name w url s) as Hn.
    destruct (parse_teachers_page w url s) as [[res|e] s1]; simpl in He, Hn.
    + set (s2 := {| files := files s1; log := log s1 ++ [EvAwaited (ParseTask url)] |}).
      assert (extends s s2) as H2.
      { eapply extends_trans; [exact He|]. apply (extends_logged s1). by repeat constructor. }
      destruct res as [|t res'].
      * destruct (IH teachers s2) as [IH1 IH2]. split; [by eapply extends_trans|done].
      * rewrite create_img_tasks_none by done.
        destruct (IH (teachers ++ t :: res') s2) as [IH1 IH2].
        split; [by eapply extends_trans|done].
    + split; [|done]. simpl.
      eapply extends_trans; [exact He|]. apply (extends_logged s1). by repeat constructor.
Qed.

Lemma gather_app divs : forall subdomains,
  gather divs subdomains = subdomains ++ map href (concat divs).
Proof.
  induction divs as [|div rest IH]; intros subdomains; simpl.
  - by rewrite app_nil_r.
  - by rewrite IH, map_app, app_assoc.
Qed.

Lemma write_lines_run subdomains : forall s old,
  files s !! subdomains_txt = Some (Text old) ->
  write_lines subdomains s =
  (Return tt,
   {| files := <[subdomains_txt := Text (old ++ concat (map line subdomains))]> (files s);
      log := log s |}).
Proof.
  induction subdomains as [|sd rest IH]; intros s old H; simpl.
  - unfold ret. rewrite app_nil_r, insert_id by done. by destruct s.
  - unfold bind, write_text. rewrite H.
    erewrite IH by (simpl; apply lookup_insert_eq).
    simpl. rewrite insert_insert_eq. unfold line at 2. by rewrite <- app_assoc.
Qed.

Lemma create_tasks_run subdomains : forall tasks s,
  create_tasks subdomains tasks s =
  (Return (tasks ++ map (fun sd => sd ++ URL_TEACHERS) subdomains),
   logged s (map (fun sd => EvCreate (ParseTask (sd ++ URL_TEACHERS))) subdomains)).
Proof.
  induction subdomains as [|sd rest IH]; intros tasks s; simpl.
  - unfold ret. by rewrite app_nil_r, logged_nil.
  - unfold bind, emit. rewrite IH. unfold logged; simpl.
    by rewrite <- !app_assoc.
Qed.

Lemma main_run w s :
  main w s =
  match text_of w URL_SUBDS 0 with
  | Raise e => (Raise e, logged s [EvGet URL_SUBDS])
  | Return h =>
      let subdomains := map href (concat (schlist_city_box h)) in
      match collect w (map (fun sd => sd ++ URL_TEACHERS) subdomains) [] [] (discovered h s) with
      | (Raise e, s2) => (Raise e, s2)
      | (Return r, s2) =>
          await_images w (snd r)
            {| files := <[teachers_json := Text (Json.dumps (fst r))]> (files s2);
               log := log s2 ++ [EvSaved teachers_json] |}
      end
  end.
Proof.
  unfold main. unfold bind at 1. rewrite get_text_run.
  destruct (text_of w URL_SUBDS 0) as [h|e]; [|done].
  rewrite gather_app. simpl app at 1.
  unfold bind at 1. unfold open_w at 1.
  unfold bind at 1. erewrite write_lines_run by (simpl; apply lookup_insert_eq).
  unfold bind at 1, emit at 1.
  unfold bind at 1. rewrite create_tasks_run.
  unfold bind at 1. cbn [files log logged app].
  rewrite insert_insert_eq.
  match goal with |- match collect _ _ _ _ ?a with _ => _ end = match collect _ _ _ _ ?b with _ => _ end =>
    replace a with b end.
  2:{ unfold discovered, logged. cbn [files log]. f_equal.
      rewrite <- !app_assoc. done. }
  destruct (collect _ _ _ _ _) as [[r|e] s2]; [|done].
  unfold bind, open_w, write_text, emit. cbn [files log].
  rewrite lookup_insert_eq, insert_insert_eq. done.
Qed.

Lemma main_log w fs :
  Forall (fun e => image_event e = false) (log (snd (main w (start fs)))).
Proof.
  rewrite main_run.
  destruct (text_of w URL_SUBDS 0) as [h|e].
  2:{ simpl. by apply Forall_singleton. }
  cbn zeta.
  destruct (collect_extends w (map (fun sd => sd ++ URL_TEACHERS)
              (map href (concat (schlist_city_box h)))) [] (discovered h (start fs)))
    as [[_ (l & Hl & Hq)] Hr].
  assert (Forall (fun e => image_event e = false) (log (discovered h (start fs)))) as Hd.
  { unfold discovered, start. cbn [log app]. repeat (apply Forall_cons; split; [done|]).
    apply Forall_map, Forall_forall. done. }
  destruct (collect _ _ _ _ _) as [[r|e] s2]; cbn [fst snd] in *.
  - rewrite Hr. cbn [await_images ret snd log]. rewrite Hl.
    apply Forall_app_2; [apply Forall_app_2; [exact Hd|exact Hq]|by apply Forall_singleton].
  - rewrite Hl. by apply Forall_app_2.
Qed.

(** * The spinner of console_proc.py *)

Lemma print_loading_step p :
  exists out, ConsoleProc.print_loading p = Some (((p + 1) mod 4)%Z, out).
Proof.
  unfold ConsoleProc.print_loading.
  change (Z.of_nat (length ConsoleProc._loading_chars)) with 4%Z.
  pose proof (Z.mod_pos_bound (p + 1) 4 eq_refl) as Hb.
  assert (((p + 1) mod 4 = 0 \/ (p + 1) mod 4 = 1 \/ (p + 1) mod 4 = 2 \/ (p + 1) mod 4 = 3)%Z)
    as [-> | [-> | [-> | ->]]] by lia; eexists; reflexivity.
Qed.

Lemma calls_from p : forall n,
  ConsoleProc.calls n p = Some (if n is O then p else ((p + Z.of_nat n) mod 4)%Z).
Proof.
  intros n. revert p. induction n as [|n IH]; intros p; [done|].
  cbn [ConsoleProc.calls]. destruct (print_loading_step p) as [out ->].
  rewrite IH. f_equal. destruct n as [|n].
  - f_equal; lia.
  - rewrite Zplus_mod_idemp_l. f_equal; lia.
Qed.

(** C10: [_char_pos] starts at 0 and after any number [n] of calls of
    [print_loading] it is [n mod 4], a value from 0 to 3; no call raises
    [IndexError], and the position is a valid index of ['-\|/']. *)
Theorem char_pos_in_bounds (n : nat) :
  exists p : Z,
    ConsoleProc.calls n ConsoleProc._char_pos_init = Some p /\
    p = (Z.of_nat n mod 4)%Z /\
    (0 <= p < 4)%Z /\
    is_Some (Py.index ConsoleProc._loading_chars p).
Proof.
  exists (Z.of_nat n mod 4)%Z.
  pose proof (Z.mod_pos_bound (Z.of_nat n) 4 eq_refl) as Hb.
  repeat split; try lia.
  - rewrite calls_from. unfold ConsoleProc._char_pos_init. by destruct n.
  - assert ((Z.of_nat n mod 4 = 0 \/ Z.of_nat n mod 4 = 1 \/
             Z.of_nat n mod 4 = 2 \/ Z.of_nat n mod 4 = 3)%Z)
      as [-> | [-> | [-> | ->]]] by lia; by eexists.
Qed.

(** * The name sanitizer *)

(** C1: on [" a/b "] the sanitizer returns [None], not a string; and the
    string it computes and drops still holds the forbidden ['/'], since the
    translation table is keyed by characters and looked up by ordinals. *)
Theorem make_name_valid_slash :
  make_name_valid (Py.lit " a/b ") = Py.VNone /\
  make_name_valid_expr (Py.lit " a/b ") = Py.lit "a/b" /\
  47 ∈ forbidden.
Proof. repeat split; try reflexivity. unfold forbidden. set_solver. Qed.

(** C2: [make_name_valid] returns [None] on every input; a card with a name
    element gets the record field ['name'] set to [None]; every record that
    [parse_teachers_page] returns is the record of a card of the page and
    has [None] under [get('name')]; and [main] never creates (nor awaits) a
    [download_and_save_image] task. *)
Theorem name_is_always_none :
  (forall name, make_name_valid name = Py.VNone) /\
  (forall text img,
     Py.dict_get (Py.lit "name")
       (parse_card {| user_type_3 := Some text; photo_img := img |}) = Some Py.VNone) /\
  (forall w page_url s,
     match fst (parse_teachers_page w page_url s) with
     | Return teachers =>
         Forall (fun t => (exists c, t = parse_card c) /\
                          teacher_get (Py.lit "name") t = Py.VNone) teachers
     | Raise _ => True
     end) /\
  (forall w fs, Forall (fun e => image_event e = false) (log (snd (main w (start fs))))).
Proof.
  split; [done|]. split; [by intros text [[src|]|]|]. split; [|apply main_log].
  intros w url s. rewrite parse_teachers_page_run.
  destruct (page_loop w url MAX_RECONNECT_TRIES 0 s) as [[[soup| |]|e] s']; simpl; try done.
  rewrite parse_cards_app. simpl. apply Forall_map, Forall_forall.
  intros c _. split; [by exists c|apply parse_card_name].
Qed.

(** * The directory page *)

(** C9: when the request for the directory page raises, [main] ends with
    that exception after this one request: nothing is retried, no task is
    created and no file is touched. *)
Theorem directory_failure_is_fatal (w : world) (s : state) (e : exn) :
  text_of w URL_SUBDS 0 = Raise e ->
  main w s = (Raise e, {| files := files s; log := log s ++ [EvGet URL_SUBDS] |}).
Proof. intros H. by rewrite main_run, H. Qed.

Lemma directory_failure_is_fatal_witness :
  main down_world (start ∅) = (Raise ClientError, {| files := ∅; log := [EvGet URL_SUBDS] |}).
Proof. apply (directory_failure_is_fatal down_world (start ∅) ClientError). reflexivity. Defined.







(** * Retries *)

Section Retries.
Variable w : world.

(** The page loop after [k] retried errors, when attempt [k] ends without a
    retry. *)
Lemma page_loop_ends url s k :
  (k < MAX_RECONNECT_TRIES)%nat ->
  (forall i, (i < k)%nat -> exists e, text_of w url i = Raise e /\ page_retries e = true) ->
  page_loop w url MAX_RECONNECT_TRIES 0 s =
  match text_of w url k with
  | Return h => (Return (Break h), logged s (replicate (S k) (EvGet url)))
  | Raise e =>
      if page_retries e
      then page_loop w url (MAX_RECONNECT_TRIES - S k) (S k) (logged s (replicate (S k) (EvGet url)))
      else if except [UnicodeError] e
      then (Return Returned, logged s (replicate (S k) (EvGet url)))
      else (Raise e, logged s (replicate (S k) (EvGet url)))
  end.
Proof.
  intros Hk H.
  replace MAX_RECONNECT_TRIES with (k + S (MAX_RECONNECT_TRIES - S k))%nat at 1 by lia.
  rewrite page_loop_retried by done.
  rewrite page_loop_step, logged_logged, <- replicate_S_end. done.
Qed.

Lemma download_loop_ends url s k :
  (k < MAX_RECONNECT_TRIES)%nat ->
  (forall i, (i < k)%nat -> exists e, read_of w url i = Raise e /\ image_retries e = true) ->
  download_loop w url MAX_RECONNECT_TRIES 0 s =
  match read_of w url k with
  | Return raw => (Return (Break raw), logged s (replicate (S k) (EvGet url)))
  | Raise e =>
      if image_retries e
      then download_loop w url (MAX_RECONNECT_TRIES - S k) (S k)
             (logged s (replicate (S k) (EvGet url)))
      else if except [UnicodeError] e
      then (Return Returned, logged s (replicate (S k) (EvGet url)))
      else (Raise e, logged s (replicate (S k) (EvGet url)))
  end.
Proof.
  intros Hk H.
  replace MAX_RECONNECT_TRIES with (k + S (MAX_RECONNECT_TRIES - S k))%nat at 1 by lia.
  rewrite download_loop_retried by done.
  rewrite download_loop_step, logged_logged, <- replicate_S_end. done.
Qed.

(** C8: when attempt [k] (from 0, below the maximum of 3) of the page fetch
    or of the image fetch raises [UnicodeError], the attempts before it
    having ended in errors that the loop retries, the operation returns at
    once: [k + 1] requests have been issued and no more, the parser returns
    the empty list, the fetcher returns without a file written. *)
Theorem unicode_error_aborts (url filename : Py.str) (s : state) (k : nat) :
  (k < MAX_RECONNECT_TRIES)%nat ->
  (forall i, (i < k)%nat -> exists e, text_of w url i = Raise e /\ page_retries e = true) ->
  text_of w url k = Raise UnicodeError ->
  (forall i, (i < k)%nat -> exists e, read_of w url i = Raise e /\ image_retries e = true) ->
  read_of w url k = Raise UnicodeError ->
  parse_teachers_page w url s =
    (Return [], {| files := files s; log := log s ++ replicate (S k) (EvGet url) |}) /\
  download_and_save_image w filename url s =
    (Return tt, {| files := files s; log := log s ++ replicate (S k) (EvGet url) |}).
Proof.
  intros Hk Hp Hpk Hd Hdk. split.
  - rewrite parse_teachers_page_run, (page_loop_ends url s k Hk Hp), Hpk. done.
  - rewrite download_and_save_image_run, (download_loop_ends url s k Hk Hd), Hdk. done.
Qed.

End Retries.

Lemma unicode_error_aborts_witness :
  parse_teachers_page garbled_world a_teachers (start ∅) =
    (Return [], {| files := ∅; log := [EvGet a_teachers; EvGet a_teachers] |}) /\
  download_and_save_image garbled_world (Py.lit "Jane Doe") a_teachers (start ∅) =
    (Return tt, {| files := ∅; log := [EvGet a_teachers; EvGet a_teachers] |}).
Proof.
  apply (unicode_error_aborts garbled_world a_teachers (Py.lit "Jane Doe") (start ∅) 1).
  - unfold MAX_RECONNECT_TRIES. lia.
  - intros i Hi. assert (i = 0%nat) as -> by lia. exists ClientError. split; reflexivity.
  - reflexivity.
  - intros i Hi. assert (i = 0%nat) as -> by lia. exists ClientError. split; reflexivity.
  - reflexivity.
Defined.

(** C4: a page fetch whose first attempt runs into [asyncio.TimeoutError]
    is not retried: [parse_teachers_page] raises after one request, and
    [main], awaiting the task, ends with the exception before
    [teachers.json] is written; [download_and_save_image] retries the same
    error three times and returns. *)
Theorem page_fetch_timeout_escapes :
  parse_teachers_page timeout_world a_teachers (start ∅) =
    (Raise TimeoutError, {| files := ∅; log := [EvGet a_teachers] |}) /\
  download_and_save_image timeout_world (Py.lit "Jane Doe") x_jpg (start ∅) =
    (Return tt, {| files := ∅; log := [EvGet x_jpg; EvGet x_jpg; EvGet x_jpg] |}) /\
  fst (main stalled_world (start ∅)) = Raise TimeoutError /\
  files (snd (main stalled_world (start ∅))) !! teachers_json = None.
Proof. repeat split; vm_compute; reflexivity. Qed.

(** * Teacher records *)

(** C3: for the page with the one card of Jane Doe, the record returned has
    [None] under ['name'], not the text of the name element. *)
Theorem jane_doe_name_lost :
  fst (parse_teachers_page jane_world a_teachers (start ∅)) =
    Return [[(Py.lit "name", Py.VNone); (Py.lit "img_url", Py.VStr x_jpg)]] /\
  fst (parse_teachers_page jane_world a_teachers (start ∅)) <> Return [jane_record].
Proof. split; [reflexivity|]. vm_compute. discriminate. Qed.

(** C5: for the one subdomain with the one card of Jane Doe,
    [teachers.json] holds [[{"name": null, "img_url": "https://a.schools.by/x.jpg"}]],
    which is not the serialization of the record with the name. *)
Theorem jane_doe_teachers_json :
  files (snd (main jane_world (start ∅))) !! teachers_json =
    Some (Text (Py.lit "[{" ++ [34] ++ Py.lit "name" ++ [34] ++ Py.lit ": null, "
                ++ [34] ++ Py.lit "img_url" ++ [34] ++ Py.lit ": "
                ++ [34] ++ x_jpg ++ [34] ++ Py.lit "}]")) /\
  files (snd (main jane_world (start ∅))) !! teachers_json <>
    Some (Text (Json.dumps [jane_record])).
Proof. split; [vm_compute; reflexivity|]. vm_compute. discriminate. Qed.

(** * Order of the stages *)

(** * Further facts *)

Section ClientErrors.
Variable w : world.
Variables url filename : Py.str.
Variable s : state.
Variables e1 e2 : exn.
Hypothesis client1 : client_error e1 = true.
Hypothesis client2 : client_error e2 = true.

Lemma two_failed_pages :
  text_of w url 0 = Raise e1 -> text_of w url 1 = Raise e2 ->
  forall i, (i < 2)%nat -> exists e, text_of w url i = Raise e /\ page_retries e = true.
Proof.
  intros H0 H1 i Hi. destruct i as [|[|i]]; [| |lia].
  - exists e1. split; [done|]. by apply client_error_retried.
  - exists e2. split; [done|]. by apply client_error_retried.
Qed.

Lemma two_failed_reads :
  read_of w url 0 = Raise e1 -> read_of w url 1 = Raise e2 ->
  forall i, (i < 2)%nat -> exists e, read_of w url i = Raise e /\ image_retries e = true.
Proof.
  intros H0 H1 i Hi. destruct i as [|[|i]]; [| |lia].
  - exists e1. split; [done|]. by apply client_error_retried.
  - exists e2. split; [done|]. by apply client_error_retried.
Qed.

(** X1: two attempts that fail with an aiohttp client error and a third that
    succeeds: the parser returns the records of the page; the fetcher, when
    the path [img/<filename>.jpg] can be opened, writes the payload to the
    file that the path names; three requests each. *)
Theorem third_attempt_succeeds (h : html) (raw : list N) (file : Py.str) :
  text_of w url 0 = Raise e1 -> text_of w url 1 = Raise e2 -> text_of w url 2 = Return h ->
  read_of w url 0 = Raise e1 -> read_of w url 1 = Raise e2 -> read_of w url 2 = Return raw ->
  open_of w (path_join SUBFOLDER (filename ++ Py.lit ".jpg")) = Return file ->
  parse_teachers_page w url s =
    (Return (parse_cards (sch_ptbox_item h) []),
     {| files := files s; log := log s ++ replicate 3 (EvGet url) |}) /\
  download_and_save_image w filename url s =
    (Return tt,
     {| files := <[file := Bytes raw]> (files s);
        log := log s ++ replicate 3 (EvGet url)
               ++ [EvSaved (path_join SUBFOLDER (filename ++ Py.lit ".jpg"))] |}).
Proof.
  intros T0 T1 T2 R0 R1 R2 Ho. split.
  - rewrite parse_teachers_page_run.
    rewrite (page_loop_ends w url s 2) by (unfold MAX_RECONNECT_TRIES; lia || by apply two_failed_pages).
    by rewrite T2.
  - rewrite download_and_save_image_run.
    rewrite (download_loop_ends w url s 2) by (unfold MAX_RECONNECT_TRIES; lia || by apply two_failed_reads).
    rewrite R2, Ho. unfold logged. cbn [files log]. by rewrite <- app_assoc.
Qed.

(** X2: three attempts that fail with an aiohttp client error: the parser
    returns the empty list, the fetcher returns with no file written; no
    exception comes out, and there is no fourth request. *)
Theorem three_attempts_fail (e3 : exn) :
  client_error e3 = true ->
  text_of w url 0 = Raise e1 -> text_of w url 1 = Raise e2 -> text_of w url 2 = Raise e3 ->
  read_of w url 0 = Raise e1 -> read_of w url 1 = Raise e2 -> read_of w url 2 = Raise e3 ->
  parse_teachers_page w url s =
    (Return [], {| files := files s; log := log s ++ replicate 3 (EvGet url) |}) /\
  download_and_save_image w filename url s =
    (Return tt, {| files := files s; log := log s ++ replicate 3 (EvGet url) |}).
Proof.
  intros C3 T0 T1 T2 R0 R1 R2. destruct (client_error_retried e3 C3) as [P3 I3]. split.
  - rewrite parse_teachers_page_run.
    rewrite (page_loop_ends w url s 2) by (unfold MAX_RECONNECT_TRIES; lia || by apply two_failed_pages).
    by rewrite T2, P3.
  - rewrite download_and_save_image_run.
    rewrite (download_loop_ends w url s 2) by (unfold MAX_RECONNECT_TRIES; lia || by apply two_failed_reads).
    by rewrite R2, I3.
Qed.

End ClientErrors.

Lemma third_attempt_succeeds_witness :
  parse_teachers_page flaky_world a_teachers (start ∅) =
    (Return (parse_cards [jane_card] []),
     {| files := ∅; log := replicate 3 (EvGet a_teachers) |}) /\
  download_and_save_image flaky_world (Py.lit "Jane Doe") a_teachers (start ∅) =
    (Return tt,
     {| files := <[path_join SUBFOLDER (Py.lit "Jane Doe" ++ Py.lit ".jpg") := Bytes [255; 216; 255]]> ∅;
        log := replicate 3 (EvGet a_teachers)
               ++ [EvSaved (path_join SUBFOLDER (Py.lit "Jane Doe" ++ Py.lit ".jpg"))] |}).
Proof.
  apply (third_attempt_succeeds flaky_world a_teachers (Py.lit "Jane Doe") (start ∅)
           ServerConnectionError ServerTimeoutError eq_refl eq_refl
           jane_page [255; 216; 255]
           (path_join SUBFOLDER (Py.lit "Jane Doe" ++ Py.lit ".jpg"))); reflexivity.
Defined.

Lemma three_attempts_fail_witness :
  parse_teachers_page down_world a_teachers (start ∅) =
    (Return [], {| files := ∅; log := replicate 3 (EvGet a_teachers) |}) /\
  download_and_save_image down_world (Py.lit "Jane Doe") a_teachers (start ∅) =
    (Return tt, {| files := ∅; log := replicate 3 (EvGet a_teachers) |}).
Proof.
  apply (three_attempts_fail down_world a_teachers (Py.lit "Jane Doe") (start ∅)
           ClientError ClientError eq_refl eq_refl ClientError); reflexivity.
Defined.

(** X3: the cards kept are those with a name element or a photo image, in
    document order; a record has the key ['name'] exactly when the card has
    a name element, and the key ['img_url'] exactly when it has a photo
    image, with the [src] attribute as its value ([None] without one). *)
Theorem parse_cards_keeps_cards_with_a_field (cards : list card) :
  parse_cards cards [] = map parse_card (filter (fun c => has_field c = true) cards) /\
  Forall (fun c =>
            Py.dict_get (Py.lit "name") (parse_card c)
              = (fun _ => Py.VNone) <$> user_type_3 c /\
            Py.dict_get (Py.lit "img_url") (parse_card c)
              = (fun src => from_option Py.VStr Py.VNone src) <$> photo_img c) cards.
Proof.
  split; [by rewrite parse_cards_app|].
  apply Forall_forall. intros c _. by destruct c as [[text|] [[src|]|]].
Qed.

(** X4: the string that [make_name_valid] computes and drops is [name.strip()]:
    no key of the table is an ordinal, so [translate] replaces nothing. *)
Theorem make_name_valid_expr_is_strip (name : Py.str) :
  make_name_valid_expr name = Py.strip name.
Proof.
  unfold make_name_valid_expr. induction (Py.strip name) as [|c r IH]; [done|].
  simpl. by rewrite IH.
Qed.

(** X5: with [ensure_ascii=False] a character outside ASCII is written as it is. *)
Theorem json_keeps_non_ascii (c : N) (s : Py.str) :
  128 <= c -> Json.escape c = [c] /\ Json.dumps_str (c :: s) = 34 :: c :: flat_map Json.escape s ++ [34].
Proof.
  intros H. assert (Json.escape c = [c]) as E.
  { unfold Json.escape.
    repeat match goal with
           | |- context [c =? ?k] => destruct (N.eqb_spec c k); [lia|]
           end.
    destruct (N.ltb_spec c 32); [lia|done]. }
  split; [done|]. unfold Json.dumps_str. simpl. by rewrite E.
Qed.

Lemma json_keeps_non_ascii_witness :
  Json.escape 1071 = [1071] /\
  Json.dumps_str [1071; 1085] = 34 :: 1071 :: flat_map Json.escape [1085] ++ [34].
Proof. apply (json_keeps_non_ascii 1071 [1085]). lia. Defined.

Lemma page_loop_value w url remaining : forall tries s s',
  fst (page_loop w url remaining tries s) = fst (page_loop w url remaining tries s').
Proof.
  induction remaining as [|r IH]; intros tries s s'; [done|].
  rewrite !page_loop_step.
  destruct (text_of w url tries) as [h|e]; [done|].
  destruct (page_retries e); [apply IH|].
  by destruct (except [UnicodeError] e).
Qed.

Lemma parse_teachers_page_value w url s :
  fst (parse_teachers_page w url s) = page_result w url.
Proof.
  unfold page_result. rewrite !parse_teachers_page_run.
  pose proof (page_loop_value w url MAX_RECONNECT_TRIES 0 s (start ∅)) as H.
  destruct (page_loop w url MAX_RECONNECT_TRIES 0 s) as [[[soup| |]|e] s1];
    destruct (page_loop w url MAX_RECONNECT_TRIES 0 (start ∅)) as [[[soup'| |]|e'] s2];
    simpl in *; congruence.
Qed.








(** * The retry loops in general *)

Section LoopShape.
Variable w : world.

(** The loop issues at most [remaining] requests, at least one when it
    runs at all, and does nothing else to the state. *)
Lemma page_loop_log url remaining : forall tries s,
  exists k, (k <= remaining)%nat /\ (remaining = 0%nat \/ 1 <= k)%nat /\
    snd (page_loop w url remaining tries s) = logged s (replicate k (EvGet url)).
Proof.
  induction remaining as [|r IH]; intros tries s.
  - exists 0%nat. split; [lia|]. split; [by left|]. simpl. by rewrite logged_nil.
  - rewrite page_loop_step.
    destruct (text_of w url tries) as [h|e].
    { exists 1%nat. split; [lia|]. split; [right; lia|done]. }
    destruct (page_retries e).
    + destruct (IH (S tries) (logged s [EvGet url])) as (k & Hk & _ & ->).
      exists (S k). split; [lia|]. split; [right; lia|]. by rewrite logged_logged.
    + exists 1%nat. split; [lia|]. split; [right; lia|].
      by destruct (except [UnicodeError] e).
Qed.

Lemma download_loop_log url remaining : forall tries s,
  exists k, (k <= remaining)%nat /\ (remaining = 0%nat \/ 1 <= k)%nat /\
    snd (download_loop w url remaining tries s) = logged s (replicate k (EvGet url)).
Proof.
  induction remaining as [|r IH]; intros tries s.
  - exists 0%nat. split; [lia|]. split; [by left|]. simpl. by rewrite logged_nil.
  - rewrite download_loop_step.
    destruct (read_of w url tries) as [h|e].
    { exists 1%nat. split; [lia|]. split; [right; lia|done]. }
    destruct (image_retries e).
    + destruct (IH (S tries) (logged s [EvGet url])) as (k & Hk & _ & ->).
      exists (S k). split; [lia|]. split; [right; lia|]. by rewrite logged_logged.
    + exists 1%nat. split; [lia|]. split; [right; lia|].
      by destruct (except [UnicodeError] e).
Qed.

(** An exception leaves a loop only when no handler of the loop catches it. *)
Lemma page_loop_raises url remaining : forall tries s e,
  fst (page_loop w url remaining tries s) = Raise e ->
  page_retries e = false /\ except [UnicodeError] e = false.
Proof.
  induction remaining as [|r IH]; intros tries s e; [done|].
  rewrite page_loop_step.
  destruct (text_of w url tries) as [h|e']; [done|].
  destruct (page_retries e') eqn:R; [apply IH|].
  destruct (except [UnicodeError] e') eqn:U; [done|].
  simpl. intros [= <-]. done.
Qed.

Lemma download_loop_raises url remaining : forall tries s e,
  fst (download_loop w url remaining tries s) = Raise e ->
  image_retries e = false /\ except [UnicodeError] e = false.
Proof.
  induction remaining as [|r IH]; intros tries s e; [done|].
  rewrite download_loop_step.
  destruct (read_of w url tries) as [h|e']; [done|].
  destruct (image_retries e') eqn:R; [apply IH|].
  destruct (except [UnicodeError] e') eqn:U; [done|].
  simpl. intros [= <-]. done.
Qed.

(** What a loop returns or raises was the outcome of one of its attempts. *)
Lemma download_loop_outcome url remaining : forall tries s,
  (forall raw, fst (download_loop w url remaining tries s) = Return (Break raw) ->
     exists k, (tries <= k < tries + remaining)%nat /\ read_of w url k = Return raw) /\
  (forall e, fst (download_loop w url remaining tries s) = Raise e ->
     exists k, (tries <= k < tries + remaining)%nat /\ read_of w url k = Raise e /\
               image_retries e = false /\ except [UnicodeError] e = false).
Proof.
  induction remaining as [|r IH]; intros tries s; [done|].
  rewrite download_loop_step.
  destruct (read_of w url tries) as [raw'|e'] eqn:Hread.
  { split; [|done]. intros raw [= <-]. exists tries. split; [lia|done]. }
  destruct (image_retries e') eqn:R.
  - destruct (IH (S tries) (logged s [EvGet url])) as [Hb Hr]. split.
    + intros raw H. destruct (Hb raw H) as (k & Hk & Hk'). exists k. split; [lia|done].
    + intros e H. destruct (Hr e H) as (k & Hk & Hk'). exists k. split; [lia|done].
  - destruct (except [UnicodeError] e') eqn:U; [done|]. split; [done|].
    intros e [= <-]. exists tries. split; [lia|done].
Qed.

End LoopShape.

(** * The two operations on any world *)

(** X8: when attempt [k] (from 0, below 3) of the page fetch returns the
    page, the attempts before it having raised errors that the loop
    retries, [parse_teachers_page] returns the records of the cards that
    have a name element or a photo image, in document order, after [k + 1]
    requests and without touching a file. *)
Theorem page_fetch_succeeds_at (w : world) (url : Py.str) (s : state) (k : nat) (h : html) :
  (k < MAX_RECONNECT_TRIES)%nat ->
  (forall i, (i < k)%nat -> exists e, text_of w url i = Raise e /\ page_retries e = true) ->
  text_of w url k = Return h ->
  parse_teachers_page w url s =
    (Return (map parse_card (filter (fun c => has_field c = true) (sch_ptbox_item h))),
     {| files := files s; log := log s ++ replicate (S k) (EvGet url) |}).
Proof.
  intros Hk Hp Hh.
  rewrite parse_teachers_page_run, (page_loop_ends w url s k Hk Hp), Hh.
  by rewrite parse_cards_app.
Qed.

Lemma page_fetch_succeeds_at_witness :
  parse_teachers_page jane_world a_teachers (start ∅) =
    (Return (map parse_card (filter (fun c => has_field c = true) (sch_ptbox_item jane_page))),
     {| files := ∅; log := [EvGet a_teachers] |}).
Proof.
  apply (page_fetch_succeeds_at jane_world a_teachers (start ∅) 0 jane_page).
  - unfold MAX_RECONNECT_TRIES. lia.
  - intros i Hi. lia.
  - reflexivity.
Defined.

(** X9: when attempt [k] (from 0, below 3) of the image fetch returns the
    payload, the attempts before it having raised errors that the loop
    retries ([asyncio.TimeoutError] among them), and the path
    [img/<filename>.jpg] can be opened, [download_and_save_image] returns
    after [k + 1] requests, and the file that the path names holds exactly
    the payload, whatever it held before. *)
Theorem image_fetch_succeeds_at (w : world) (filename url : Py.str) (s : state) (k : nat)
    (raw : list N) (file : Py.str) :
  (k < MAX_RECONNECT_TRIES)%nat ->
  (forall i, (i < k)%nat -> exists e, read_of w url i = Raise e /\ image_retries e = true) ->
  read_of w url k = Return raw ->
  open_of w (path_join SUBFOLDER (filename ++ Py.lit ".jpg")) = Return file ->
  download_and_save_image w filename url s =
    (Return tt,
     {| files := <[file := Bytes raw]> (files s);
        log := log s ++ replicate (S k) (EvGet url)
               ++ [EvSaved (path_join SUBFOLDER (filename ++ Py.lit ".jpg"))] |}).
Proof.
  intros Hk Hp Hraw Ho.
  rewrite download_and_save_image_run, (download_loop_ends w url s k Hk Hp), Hraw, Ho.
  unfold logged. cbn [files log]. by rewrite <- app_assoc.
Qed.

Lemma image_fetch_succeeds_at_witness :
  download_and_save_image slow_image_world (Py.lit "Jane Doe") x_jpg
    {| files := {[ Py.lit "img/Jane Doe.jpg" := Bytes [0] ]}; log := [] |} =
    (Return tt,
     {| files := <[Py.lit "img/Jane Doe.jpg" := Bytes [255; 216; 255]]>
                   {[ Py.lit "img/Jane Doe.jpg" := Bytes [0] ]};
        log := [] ++ replicate 2 (EvGet x_jpg)
               ++ [EvSaved (path_join SUBFOLDER (Py.lit "Jane Doe" ++ Py.lit ".jpg"))] |}).
Proof.
  refine (image_fetch_succeeds_at slow_image_world (Py.lit "Jane Doe") x_jpg
            {| files := {[ Py.lit "img/Jane Doe.jpg" := Bytes [0] ]}; log := [] |} 1
            [255; 216; 255] (Py.lit "img/Jane Doe.jpg") _ _ _ _).
  - unfold MAX_RECONNECT_TRIES. lia.
  - intros i Hi. assert (i = 0%nat) as -> by lia. exists TimeoutError. split; reflexivity.
  - reflexivity.
  - reflexivity.
Defined.

(** X10: when all three attempts of the image fetch raise errors that its
    loop retries (aiohttp client errors or [asyncio.TimeoutError]),
    [download_and_save_image] returns without an exception after exactly
    three requests and no file is changed. *)
Theorem image_fetch_gives_up (w : world) (filename url : Py.str) (s : state) :
  (forall i, (i < MAX_RECONNECT_TRIES)%nat ->
     exists e, read_of w url i = Raise e /\ image_retries e = true) ->
  download_and_save_image w filename url s =
    (Return tt, {| files := files s; log := log s ++ replicate 3 (EvGet url) |}).
Proof.
  intros H. rewrite download_and_save_image_run.
  destruct (H 2%nat) as (e & He & Hr); [unfold MAX_RECONNECT_TRIES; lia|].
  rewrite (download_loop_ends w url s 2).
  - by rewrite He, Hr.
  - unfold MAX_RECONNECT_TRIES. lia.
  - intros i Hi. apply H. unfold MAX_RECONNECT_TRIES. lia.
Qed.

Lemma image_fetch_gives_up_witness :
  download_and_save_image timeout_world (Py.lit "Jane Doe") x_jpg (start ∅) =
    (Return tt, {| files := ∅; log := replicate 3 (EvGet x_jpg) |}).
Proof.
  apply (image_fetch_gives_up timeout_world (Py.lit "Jane Doe") x_jpg (start ∅)).
  intros i Hi. exists TimeoutError. split; reflexivity.
Defined.

Lemma parse_shape (w : world) (url : Py.str) (s : state) :
  exists k, (1 <= k <= MAX_RECONNECT_TRIES)%nat /\
    snd (parse_teachers_page w url s) =
      {| files := files s; log := log s ++ replicate k (EvGet url) |}.
Proof.
  destruct (page_loop_log w url MAX_RECONNECT_TRIES 0 s) as (k & Hk & [H0|H1] & Hs); [done|].
  exists k. split; [lia|]. rewrite parse_teachers_page_run.
  destruct (page_loop w url MAX_RECONNECT_TRIES 0 s) as [[[soup| |]|e] s']; simpl in *; by subst.
Qed.

Lemma download_shape (w : world) (filename url : Py.str) (s : state) :
  exists k, (1 <= k <= MAX_RECONNECT_TRIES)%nat /\
    (snd (download_and_save_image w filename url s) =
       {| files := files s; log := log s ++ replicate k (EvGet url) |} \/
     exists raw file,
       open_of w (path_join SUBFOLDER (filename ++ Py.lit ".jpg")) = Return file /\
       fst (download_and_save_image w filename url s) = Return tt /\
       snd (download_and_save_image w filename url s) =
         {| files := <[file := Bytes raw]> (files s);
            log := log s ++ replicate k (EvGet url)
                   ++ [EvSaved (path_join SUBFOLDER (filename ++ Py.lit ".jpg"))] |}).
Proof.
  destruct (download_loop_log w url MAX_RECONNECT_TRIES 0 s) as (k & Hk & [H0|H1] & Hs); [done|].
  exists k. split; [lia|]. rewrite download_and_save_image_run.
  destruct (download_loop w url MAX_RECONNECT_TRIES 0 s) as [[[raw| |]|e] s'];
    cbn [fst snd] in *; subst; try by left.
  destruct (open_of w (path_join SUBFOLDER (filename ++ Py.lit ".jpg"))) as [file|e] eqn:Ho;
    cbn [fst snd]; [|by left].
  right. exists raw, file. split; [done|]. split; [done|].
  unfold logged. cbn [fst snd files log]. by rewrite <- app_assoc.
Qed.

(** X11: on every world and from every state, [parse_teachers_page] issues
    at least one and at most three requests for its URL, logs nothing else
    and changes no file, whether it returns or raises. *)
Theorem page_fetch_requests_bounded (w : world) (url : Py.str) (s : state) :
  exists k, (1 <= k <= MAX_RECONNECT_TRIES)%nat /\
    snd (parse_teachers_page w url s) =
      {| files := files s; log := log s ++ replicate k (EvGet url) |}.
Proof. apply parse_shape. Qed.

(** X12: on every world and from every state, [download_and_save_image]
    issues at least one and at most three requests for its URL; it then
    either leaves all files as they were (also when it raises), or the path
    [img/<filename>.jpg] could be opened and it returns having written the
    one file that the path names. *)
Theorem image_fetch_requests_bounded (w : world) (filename url : Py.str) (s : state) :
  exists k, (1 <= k <= MAX_RECONNECT_TRIES)%nat /\
    (snd (download_and_save_image w filename url s) =
       {| files := files s; log := log s ++ replicate k (EvGet url) |} \/
     exists raw file,
       open_of w (path_join SUBFOLDER (filename ++ Py.lit ".jpg")) = Return file /\
       fst (download_and_save_image w filename url s) = Return tt /\
       snd (download_and_save_image w filename url s) =
         {| files := <[file := Bytes raw]> (files s);
            log := log s ++ replicate k (EvGet url)
                   ++ [EvSaved (path_join SUBFOLDER (filename ++ Py.lit ".jpg"))] |}).
Proof. apply download_shape. Qed.

(** X13: an exception that comes out of [parse_teachers_page] is an
    [asyncio.TimeoutError] or one of a class that no [except] clause of the
    source names: never an aiohttp client error, never a [UnicodeError]. *)
Theorem page_fetch_raises (w : world) (url : Py.str) (s : state) (e : exn) :
  fst (parse_teachers_page w url s) = Raise e ->
  e = TimeoutError \/ e = OtherError.
Proof.
  rewrite parse_teachers_page_run. intros H.
  destruct (page_loop_raises w url MAX_RECONNECT_TRIES 0 s e) as [Hr Hu].
  - destruct (page_loop w url MAX_RECONNECT_TRIES 0 s) as [[[soup| |]|e'] s'];
      simpl in *; try done. by injection H as ->.
  - destruct e; try done; auto.
Qed.

Lemma page_fetch_raises_witness :
  fst (parse_teachers_page timeout_world a_teachers (start ∅)) = Raise TimeoutError /\
  (TimeoutError = TimeoutError \/ TimeoutError = OtherError).
Proof.
  split; [reflexivity|].
  apply (page_fetch_raises timeout_world a_teachers (start ∅) TimeoutError). reflexivity.
Defined.

(** X14: an exception that comes out of [download_and_save_image] is
    either one that a request raised, of a class that no [except] clause of
    the source names (client errors and timeouts are retried, a
    [UnicodeError] of a request ends the call quietly), or the exception
    that opening [img/<filename>.jpg] raised after a successful request:
    the save stands outside the [try]. *)
Theorem image_fetch_raises (w : world) (filename url : Py.str) (s : state) (e : exn) :
  fst (download_and_save_image w filename url s) = Raise e ->
  (e = OtherError /\ exists k, (k < MAX_RECONNECT_TRIES)%nat /\ read_of w url k = Raise e) \/
  (open_of w (path_join SUBFOLDER (filename ++ Py.lit ".jpg")) = Raise e /\
   exists k raw, (k < MAX_RECONNECT_TRIES)%nat /\ read_of w url k = Return raw).
Proof.
  rewrite download_and_save_image_run. intros H.
  destruct (download_loop_outcome w url MAX_RECONNECT_TRIES 0 s) as [Hb Hr].
  destruct (download_loop w url MAX_RECONNECT_TRIES 0 s) as [[[raw| |]|e'] s'];
    cbn [fst snd] in *; try done.
  - destruct (open_of w (path_join SUBFOLDER (filename ++ Py.lit ".jpg"))) as [file|e'] eqn:Ho;
      cbn [fst snd] in H; [done|].
    injection H as ->. right. split; [done|].
    destruct (Hb raw eq_refl) as (k & Hk & Hread). exists k, raw. split; [lia|done].
  - injection H as ->. left.
    destruct (Hr e eq_refl) as (k & Hk & Hread & Hnr & Hnu).
    split; [by destruct e|]. exists k. split; [lia|done].
Qed.

Lemma image_fetch_raises_witness :
  fst (download_and_save_image broken_world (Py.lit "Jane Doe") x_jpg (start ∅))
    = Raise OtherError /\
  ((OtherError = OtherError /\
    exists k, (k < MAX_RECONNECT_TRIES)%nat /\ read_of broken_world x_jpg k = Raise OtherError) \/
   (open_of broken_world (path_join SUBFOLDER (Py.lit "Jane Doe" ++ Py.lit ".jpg"))
      = Raise OtherError /\
    exists k raw, (k < MAX_RECONNECT_TRIES)%nat /\ read_of broken_world x_jpg k = Return raw)).
Proof.
  split; [reflexivity|].
  apply (image_fetch_raises broken_world (Py.lit "Jane Doe") x_jpg (start ∅) OtherError).
  reflexivity.
Defined.

(** X24: the save stands outside the [try]: when a request of the image
    fetch succeeds (at attempt [k], after retried errors) and opening
    [img/<filename>.jpg] raises, that exception comes out of
    [download_and_save_image], whatever its class, after [k + 1] requests
    and with no file changed. *)
Theorem image_save_failure_escapes (w : world) (filename url : Py.str) (s : state) (k : nat)
    (raw : list N) (e : exn) :
  (k < MAX_RECONNECT_TRIES)%nat ->
  (forall i, (i < k)%nat -> exists e', read_of w url i = Raise e' /\ image_retries e' = true) ->
  read_of w url k = Return raw ->
  open_of w (path_join SUBFOLDER (filename ++ Py.lit ".jpg")) = Raise e ->
  download_and_save_image w filename url s =
    (Raise e, {| files := files s; log := log s ++ replicate (S k) (EvGet url) |}).
Proof.
  intros Hk Hp Hraw Ho.
  by rewrite download_and_save_image_run, (download_loop_ends w url s k Hk Hp), Hraw, Ho.
Qed.

Lemma image_save_failure_escapes_witness :
  download_and_save_image no_folder_world (Py.lit "a/b") x_jpg (start ∅) =
    (Raise OtherError, {| files := ∅; log := [] ++ replicate 1 (EvGet x_jpg) |}).
Proof.
  apply (image_save_failure_escapes no_folder_world (Py.lit "a/b") x_jpg (start ∅) 0
           [255; 216; 255] OtherError).
  - unfold MAX_RECONNECT_TRIES. lia.
  - intros i Hi. lia.
  - reflexivity.
  - reflexivity.
Defined.

(** X15: [download_and_save_image] never changes a file other than the one
    that the path [img/<filename>.jpg] names when it is opened; when the
    path cannot be opened, it changes none. *)
Theorem image_fetch_other_files (w : world) (filename url file : Py.str) (s : state) :
  open_of w (path_join SUBFOLDER (filename ++ Py.lit ".jpg")) <> Return file ->
  files (snd (download_and_save_image w filename url s)) !! file = files s !! file.
Proof.
  intros Hne.
  destruct (download_shape w filename url s) as (k & _ & [-> | (raw & file' & Ho & _ & ->)]);
    [done|].
  cbn [files]. rewrite lookup_insert_ne; [done|]. intros ->. by apply Hne.
Qed.

Lemma image_fetch_other_files_witness :
  files (snd (download_and_save_image jane_world (Py.lit "Jane Doe") x_jpg
                {| files := {[ teachers_json := Text [] ]}; log := [] |})) !! teachers_json
  = files {| files := {[ teachers_json := Text [] ]}; log := [] |} !! teachers_json.
Proof.
  apply (image_fetch_other_files jane_world (Py.lit "Jane Doe") x_jpg teachers_json).
  vm_compute. discriminate.
Defined.

(** * Records and the guard of main *)

(** X16: on every world, each record that [parse_teachers_page] returns has
    one of three shapes: the key ['name'] alone, the key ['img_url'] alone,
    or ['name'] followed by ['img_url']; ['name'] always maps to [None].
    No record is empty and no other key occurs. *)
Theorem records_have_three_shapes (w : world) (url : Py.str) (s : state) :
  match fst (parse_teachers_page w url s) with
  | Return teachers =>
      Forall (fun t : teacher =>
                exists v,
                  t = [(Py.lit "name", Py.VNone)] \/
                  t = [(Py.lit "img_url", v)] \/
                  t = [(Py.lit "name", Py.VNone); (Py.lit "img_url", v)]) teachers
  | Raise _ => True
  end.
Proof.
  rewrite parse_teachers_page_run.
  destruct (page_loop w url MAX_RECONNECT_TRIES 0 s) as [[[soup| |]|e] s']; simpl; try done.
  rewrite parse_cards_app. simpl. apply Forall_map, Forall_forall.
  intros c Hc. apply list_elem_of_filter in Hc as [Hc _].
  destruct c as [[text|] [[src|]|]]; try done.
  - exists (Py.VStr src). by right; right.
  - exists Py.VNone. by right; right.
  - exists Py.VNone. by left.
  - exists (Py.VStr src). by right; left.
  - exists Py.VNone. by right; left.
Qed.

Lemma create_img_tasks_run res : forall img_tasks s,
  create_img_tasks res img_tasks s =
  (Return (img_tasks ++ omap wanted res),
   logged s (map (fun nu => EvCreate (ImageTask (fst nu) (snd nu))) (omap wanted res))).
Proof.
  induction res as [|t rest IH]; intros img_tasks s.
  - simpl. unfold ret. by rewrite app_nil_r, logged_nil.
  - cbn [create_img_tasks omap list_omap].
    destruct (teacher_get (Py.lit "name") t) as [|name] eqn:En.
    { assert (wanted t = None) as -> by (unfold wanted; by rewrite En). apply IH. }
    destruct (teacher_get (Py.lit "img_url") t) as [|img_url] eqn:Eu.
    { assert (wanted t = None) as -> by (unfold wanted; by rewrite En, Eu). apply IH. }
    assert (wanted t = Some (name, img_url)) as -> by (unfold wanted; by rewrite En, Eu).
    unfold bind, emit. rewrite IH. cbn [map fst snd]. unfold logged. cbn [files log].
    by rewrite <- !app_assoc.
Qed.

(** X17: the guard of [main] over the records of a page starts a download
    for exactly those records in which both ['name'] and ['img_url'] are
    present and are strings, in the order of the records, with the name as
    file name; a record with a missing key or with [None] under a key starts
    none.  The tasks are put after those already in [img_tasks]. *)
Theorem guard_starts_downloads (res : list teacher) (img_tasks : list (Py.str * Py.str))
    (s : state) :
  create_img_tasks res img_tasks s =
    (Return (img_tasks ++ omap wanted res),
     {| files := files s;
        log := log s
               ++ map (fun nu => EvCreate (ImageTask (fst nu) (snd nu))) (omap wanted res) |})
  /\ Forall (fun t : teacher =>
               forall name img_url,
                 wanted t = Some (name, img_url) <->
                 Py.dict_get (Py.lit "name") t = Some (Py.VStr name) /\
                 Py.dict_get (Py.lit "img_url") t = Some (Py.VStr img_url)) res.
Proof.
  split; [apply create_img_tasks_run|].
  apply Forall_forall. intros t _ name img_url. unfold wanted, teacher_get.
  destruct (Py.dict_get (Py.lit "name") t) as [[|n]|];
    destruct (Py.dict_get (Py.lit "img_url") t) as [[|u]|];
    (split; [intros H|intros [H1 H2]]); try discriminate.
  - by injection H as -> ->.
  - injection H1 as ->. by injection H2 as ->.
Qed.

(** * The spinner as a script *)

Lemma print_loading_frame p :
  ConsoleProc.print_loading p = Some (((p + 1) mod 4)%Z, frame ((p + 1) mod 4)).
Proof.
  unfold ConsoleProc.print_loading.
  change (Z.of_nat (length ConsoleProc._loading_chars)) with 4%Z.
  pose proof (Z.mod_pos_bound (p + 1) 4 eq_refl) as Hb.
  assert (((p + 1) mod 4 = 0 \/ (p + 1) mod 4 = 1 \/ (p + 1) mod 4 = 2 \/ (p + 1) mod 4 = 3)%Z)
    as [-> | [-> | [-> | ->]]] by lia; reflexivity.
Qed.

Lemma flat_map_seq_S {A} (f : nat -> list A) (n : nat) : forall a,
  flat_map f (seq (S a) n) = flat_map (fun i => f (S i)) (seq a n).
Proof. induction n as [|n IH]; intros a; [done|]. cbn [seq flat_map]. by rewrite IH. Qed.

(** X18: from any value [p] of the global [_char_pos], even one outside
    0..3, [n] turns of the loop never raise; turn [i] (from 0) prints a
    carriage return, a space, the character at position [(p + 1 + i) mod 4]
    of the cycle and a space, so the characters come round with period 4;
    after the turns the global is [(p + n) mod 4]. *)
Theorem spinner_frames (n : nat) (p : Z) :
  spin n p =
    Some (if n is O then p else ((p + Z.of_nat n) mod 4)%Z,
          flat_map (fun i => frame ((p + 1 + Z.of_nat i) mod 4)) (seq 0 n)).
Proof.
  revert p. induction n as [|n IH]; intros p; [done|].
  cbn [spin]. rewrite print_loading_frame, IH.
  cbn [seq flat_map]. rewrite flat_map_seq_S. f_equal. f_equal.
  - destruct n as [|n]; [f_equal; lia|]. rewrite Zplus_mod_idemp_l. f_equal; lia.
  - f_equal; [f_equal; f_equal; lia|].
    apply flat_map_ext. intros i. rewrite <- Z.add_assoc, Zplus_mod_idemp_l.
    f_equal. f_equal. lia.
Qed.

(** * main on any world *)

Lemma collect_value w tasks : forall teachers s,
  fst (collect w tasks teachers [] s) =
  match first_raise w tasks with
  | Some e => Raise e
  | None => Return (teachers ++ results w tasks, [])
  end.
Proof.
  induction tasks as [|url rest IH]; intros teachers s.
  - simpl. by rewrite app_nil_r.
  - cbn [collect first_raise]. unfold bind, await.
    pose proof (parse_teachers_page_value w url s) as Hv.
    pose proof (parse_teachers_page_name w url s) as Hn.
    destruct (parse_teachers_page w url s) as [[res|e] s1]; simpl in Hv, Hn;
      rewrite <- Hv; [|done].
    unfold results. cbn [flat_map]. rewrite <- Hv. fold (results w rest).
    destruct res as [|t res'].
    + rewrite IH. by destruct (first_raise w rest).
    + rewrite create_img_tasks_none by done. rewrite IH.
      destruct (first_raise w rest); [done|]. by rewrite <- app_assoc.
Qed.


Lemma main_value w fs :
  fst (main w (start fs)) =
  match text_of w URL_SUBDS 0 with
  | Raise e => Raise e
  | Return h =>
      match first_raise w (page_tasks h) with
      | Some e => Raise e
      | None => Return tt
      end
  end.
Proof.
  rewrite main_run. destruct (text_of w URL_SUBDS 0) as [h|e]; [|done]. cbn zeta.
  fold (page_tasks h).
  pose proof (collect_value w (page_tasks h) [] (discovered h (start fs))) as Hv.
  destruct (collect _ _ _ _ _) as [[r|e] s2]; cbn [fst] in Hv.
  - destruct (first_raise w (page_tasks h)); [done|]. injection Hv as Hv. subst r. reflexivity.
  - destruct (first_raise w (page_tasks h)); [by injection Hv as ->|done].
Qed.

Lemma main_files w fs :
  files (snd (main w (start fs))) =
  match text_of w URL_SUBDS 0 with
  | Raise _ => fs
  | Return h =>
      match first_raise w (page_tasks h) with
      | Some _ =>
          <[subdomains_txt := Text (concat (map line (map href (concat (schlist_city_box h)))))]> fs
      | None =>
          <[teachers_json := Text (Json.dumps (results w (page_tasks h)))]>
            (<[subdomains_txt := Text (concat (map line (map href (concat (schlist_city_box h)))))]> fs)
      end
  end.
Proof.
  rewrite main_run. destruct (text_of w URL_SUBDS 0) as [h|e]; [|done]. cbn zeta.
  fold (page_tasks h).
  pose proof (collect_value w (page_tasks h) [] (discovered h (start fs))) as Hv.
  destruct (collect_extends w (page_tasks h) [] (discovered h (start fs))) as [[Hf _] _].
  destruct (collect _ _ _ _ _) as [[r|e] s2]; cbn [fst snd] in *.
  - destruct (first_raise w (page_tasks h)); [done|]. injection Hv as Hv. subst r.
    cbn [fst snd await_images ret files app]. by rewrite Hf.
  - destruct (first_raise w (page_tasks h)); [|done]. by rewrite Hf.
Qed.

(** X19: when the directory page arrives and a page task raises, [main]
    ends with the exception of the first such task in the order of the
    subdomains; [subdomains.txt] has been written, [teachers.json] and all
    other files are as before the run, also for the pages that were
    parsed. *)
Theorem page_task_failure_aborts (w : world) (fs : gmap Py.str content) (h : html) (e : exn) :
  text_of w URL_SUBDS 0 = Return h ->
  first_raise w (page_tasks h) = Some e ->
  fst (main w (start fs)) = Raise e /\
  files (snd (main w (start fs))) =
    <[subdomains_txt := Text (concat (map (fun a => href a ++ [10]) (concat (schlist_city_box h))))]> fs.
Proof.
  intros H He. rewrite main_value, main_files, H, He. split; [done|].
  by rewrite map_map.
Qed.

Lemma page_task_failure_aborts_witness :
  fst (main stalled_world (start {[ teachers_json := Text (Py.lit "old") ]}))
    = Raise TimeoutError /\
  files (snd (main stalled_world (start {[ teachers_json := Text (Py.lit "old") ]}))) =
    <[subdomains_txt := Text (concat (map (fun a => href a ++ [10])
                                        (concat (schlist_city_box directory_page))))]>
      {[ teachers_json := Text (Py.lit "old") ]}.
Proof.
  apply (page_task_failure_aborts stalled_world _ directory_page TimeoutError); reflexivity.
Defined.

(** X20: [main] changes no file other than [subdomains.txt] and
    [teachers.json], on any world: in particular it writes no image file. *)
Theorem main_other_files (w : world) (fs : gmap Py.str content) (path : Py.str) :
  path <> subdomains_txt -> path <> teachers_json ->
  files (snd (main w (start fs))) !! path = fs !! path.
Proof.
  intros H1 H2. rewrite main_files.
  destruct (text_of w URL_SUBDS 0) as [h|e]; [|done].
  destruct (first_raise w (page_tasks h)); by rewrite !lookup_insert_ne.
Qed.

Lemma main_other_files_witness :
  files (snd (main jane_world (start ∅))) !! Py.lit "img/Jane Doe.jpg"
  = (∅ : gmap Py.str content) !! Py.lit "img/Jane Doe.jpg".
Proof.
  apply (main_other_files jane_world ∅ (Py.lit "img/Jane Doe.jpg")); vm_compute; discriminate.
Defined.

(** X21: a second run of [main] on the same world, started on the files
    the first run left, leaves the same files. *)
Theorem main_rerun_same_files (w : world) (fs : gmap Py.str content) :
  files (snd (main w (start (files (snd (main w (start fs))))))) =
  files (snd (main w (start fs))).
Proof.
  rewrite !main_files.
  destruct (text_of w URL_SUBDS 0) as [h|e]; [|done].
  destruct (first_raise w (page_tasks h)).
  - by rewrite insert_insert_eq.
  - apply map_eq. intros i.
    destruct (decide (i = teachers_json)) as [->|Hj]; [by rewrite !lookup_insert_eq|].
    rewrite !(lookup_insert_ne _ teachers_json) by done.
    destruct (decide (i = subdomains_txt)) as [->|Hs]; [by rewrite !lookup_insert_eq|].
    by rewrite !lookup_insert_ne by done.
Qed.



(** X23: when the directory page arrives and holds no anchor (no city
    block, or only empty ones), [main] returns after the one request, with
    an empty [subdomains.txt] and [teachers.json] holding ["[]"]. *)
Theorem empty_directory (w : world) (fs : gmap Py.str content) (h : html) :
  text_of w URL_SUBDS 0 = Return h ->
  concat (schlist_city_box h) = [] ->
  main w (start fs) =
    (Return tt,
     {| files := <[teachers_json := Text (Py.lit "[]")]> (<[subdomains_txt := Text []]> fs);
        log := [EvGet URL_SUBDS; EvSaved subdomains_txt; EvSaved teachers_json] |}).
Proof.
  intros H He. rewrite main_run, H. cbn zeta. unfold discovered. rewrite He. reflexivity.
Qed.

Lemma empty_directory_witness :
  main {| text_of := fun _ _ => Return {| sch_ptbox_item := []; schlist_city_box := [[]; []] |};
          read_of := fun _ _ => Raise ClientError;
     open_of := Return |} (start ∅) =
    (Return tt,
     {| files := <[teachers_json := Text (Py.lit "[]")]> (<[subdomains_txt := Text []]> ∅);
        log := [EvGet URL_SUBDS; EvSaved subdomains_txt; EvSaved teachers_json] |}).
Proof.
  apply (empty_directory _ ∅ {| sch_ptbox_item := []; schlist_city_box := [[]; []] |});
    reflexivity.
Defined.

(** * The order of the stages in the orchestrator *)

(** [main_with] and [parse_teachers_page_with] at the functions of the
    source are [main] and [parse_teachers_page]. *)
Lemma parse_cards_with_source cards : forall teachers,
  parse_cards_with make_name_valid cards teachers = parse_cards cards teachers.
Proof.
  induction cards as [|c rest IH]; intros teachers; [done|].
  cbn [parse_cards_with parse_cards].
  change (parse_card_with make_name_valid c) with (parse_card c).
  destruct (parse_card c); apply IH.
Qed.

Lemma parse_teachers_page_with_source w url s :
  parse_teachers_page_with make_name_valid w url s = parse_teachers_page w url s.
Proof.
  unfold parse_teachers_page_with, parse_teachers_page, bind.
  destruct (page_loop w url (MAX_RECONNECT_TRIES - 0) 0 s) as [[[soup| |]|e] s']; try done.
  by rewrite parse_cards_with_source.
Qed.

Lemma collect_with_source w tasks : forall teachers img_tasks s,
  collect_with (parse_teachers_page w) tasks teachers img_tasks s =
  collect w tasks teachers img_tasks s.
Proof.
  induction tasks as [|url rest IH]; intros teachers img_tasks s; [done|].
  cbn [collect_with collect]. unfold bind.
  destruct (await (ParseTask url) (parse_teachers_page w url) s) as [[res|e] s1]; [|done].
  destruct res as [|t res']; [apply IH|].
  destruct (create_img_tasks (t :: res') img_tasks s1) as [[its|e] s2]; [apply IH|done].
Qed.

Lemma main_with_source w s : main_with (parse_teachers_page w) w s = main w s.
Proof.
  unfold main_with, main, bind.
  destruct (get_text w URL_SUBDS 0 s) as [[h|e] s1]; [|done].
  destruct (open_w subdomains_txt (Text []) s1) as [[u|e] s2]; [|done].
  destruct (write_lines (gather (schlist_city_box h) []) s2) as [[u'|e] s3]; [|done].
  destruct (emit (EvSaved subdomains_txt) s3) as [[u''|e] s4]; [|done].
  destruct (create_tasks (gather (schlist_city_box h) []) [] s4) as [[tasks|e] s5]; [|done].
  by rewrite collect_with_source.
Qed.










